(** * M7X downloader service: a shallow embedding of [main.py]

    The service is a FastAPI application with three handlers
    ([get_video_info], [download_video], [get_batch_info]) over one pure
    helper ([get_format_opts]).  The extraction engine (yt-dlp) and the file
    system are the only collaborators; they are taken as parameters of the
    model and the handlers thread an explicit state through them. *)

From Stdlib Require Import NArith ZArith String Ascii List Lia.
From Stdlib Require Import DecimalString HexadecimalString.
From Stdlib.Strings Require Import Byte.
From stdpp Require Import gmap list fin_maps.

Set Default Proof Using "Type".

(** ** Python strings

    A Python [str] is a sequence of Unicode code points.  String literals of
    the source are written [py "..."]. *)

Abbreviation char := N (only parsing).
Abbreviation str := (list N) (only parsing).
Abbreviation bytes := (list byte) (only parsing).

Definition py (s : string) : str := map N_of_ascii (list_ascii_of_string s).
Arguments py s%_string : simpl never.

(** [str.isalnum] on one character.  On the ASCII range it is the digits and
    the letters; above it the answer comes from the interpreter's Unicode
    database, which the model takes as the table [unicode_alnum]. *)
Definition ascii_isalnum (c : char) : bool :=
  ((48 <=? c) && (c <=? 57) || (65 <=? c) && (c <=? 90)
   || (97 <=? c) && (c <=? 122))%N.

Definition isalnum (unicode_alnum : char -> bool) (c : char) : bool :=
  if (c <? 128)%N then ascii_isalnum c else unicode_alnum c.

(** The characters [str.rstrip()] removes when called without argument. *)
Definition isspace (c : char) : bool :=
  ((9 <=? c) && (c <=? 13) || (28 <=? c) && (c <=? 32)
   || (c =? 133) || (c =? 160) || (c =? 5760)
   || (8192 <=? c) && (c <=? 8202)
   || (c =? 8232) || (c =? 8233) || (c =? 8239) || (c =? 8287)
   || (c =? 12288))%N.

Fixpoint rstrip (s : str) : str :=
  match s with
  | [] => []
  | c :: s' =>
      match rstrip s' with
      | [] => if isspace c then [] else [c]
      | r => c :: r
      end
  end.

(** [s[:n]] *)
Definition slice_to (n : nat) (s : str) : str := take n s.
Arguments slice_to : simpl never.

(** ** Python values and exceptions *)

(** The values an engine metadata record can hold under a key. *)
Inductive pyval :=
| PyNone
| PyInt (z : Z)
| PyStr (s : str).

(** An exception: its class and what [str(e)] returns. *)
Inductive exn := PyExn (cls msg : str).

Definition str_of_exn (e : exn) : str := let 'PyExn _ msg := e in msg.

Definition type_name (v : pyval) : str :=
  match v with
  | PyNone => py "NoneType"
  | PyInt _ => py "int"
  | PyStr _ => py "str"
  end.

Definition TypeError (v : pyval) (what : str) : exn :=
  PyExn (py "TypeError") (py "'" ++ type_name v ++ py "' object is not " ++ what).

Definition KeyError (k : str) : exn :=
  PyExn (py "KeyError") (py "'" ++ k ++ py "'").

(** [d[k]] on a dict. *)
Definition subscript {V} (d : gmap str V) (k : str) : exn + V :=
  match d !! k with
  | Some v => inr v
  | None => inl (KeyError k)
  end.

(** [d.get(k, dflt)] on a dict. *)
Definition dict_get {V} (d : gmap str V) (k : str) (dflt : V) : V :=
  default dflt (d !! k).

Definition FileNotFoundError (p : str) : exn :=
  PyExn (py "FileNotFoundError")
        (py "[Errno 2] No such file or directory: '" ++ p ++ py "'").

(** ** Encoding a header value: [v.encode("latin-1")]

    The response object encodes every header value when it is built.  A
    code point above 255 cannot be encoded; the codec reports the first
    run of such code points. *)

(** ["%d" % n] *)
Definition decimal (n : N) : str :=
  py (DecimalString.NilZero.string_of_uint (N.to_uint n)).

(** ["%0<width>x" % n] *)
Definition hex_padded (width : nat) (n : N) : str :=
  let h := py (HexadecimalString.NilZero.string_of_uint (N.to_hex_uint n)) in
  replicate (width - length h) 48%N ++ h.

(** [str(e)] for the [UnicodeEncodeError] the latin-1 codec raises on
    [object[start:stop]]. *)
Definition UnicodeEncodeError (object : str) (start stop : nat) : exn :=
  let where_ :=
    match object !! start with
    | Some badchar =>
        if bool_decide (stop = S start) then
          py "character '"
          ++ (if (badchar <=? 255)%N then py "\x" ++ hex_padded 2 badchar
              else if (badchar <=? 65535)%N then py "\u" ++ hex_padded 4 badchar
              else py "\U" ++ hex_padded 8 badchar)
          ++ py "' in position " ++ decimal (N.of_nat start)
        else
          py "characters in position " ++ decimal (N.of_nat start)
          ++ py "-" ++ decimal (N.of_nat (stop - 1))
    | None =>
        py "characters in position " ++ decimal (N.of_nat start)
        ++ py "-" ++ decimal (N.of_nat (stop - 1))
    end in
  PyExn (py "UnicodeEncodeError")
        (py "'latin-1' codec can't encode " ++ where_
         ++ py ": ordinal not in range(256)").

Definition latin1 (c : char) : bool := (c <=? 255)%N.

(** Length of the run of code points above 255 at the head of [s]. *)
Fixpoint bad_run (s : str) : nat :=
  match s with
  | c :: s' => if latin1 c then 0 else S (bad_run s')
  | [] => 0
  end.

(** The first run [start, stop) of code points above 255 in [s], counting
    positions from [pos]. *)
Fixpoint first_bad_run (pos : nat) (s : str) : option (nat * nat) :=
  match s with
  | [] => None
  | c :: s' =>
      if latin1 c then first_bad_run (S pos) s'
      else Some (pos, S pos + bad_run s')
  end.

(** [s.encode("latin-1")], kept only for whether it raises: the response
    is modelled with its headers as text. *)
Definition encode_latin1 (s : str) : exn + unit :=
  match first_bad_run 0 s with
  | None => inr tt
  | Some (start, stop) => inl (UnicodeEncodeError s start stop)
  end.

(** ** Format resolver: [get_format_opts] *)

Inductive postprocessor :=
| FFmpegExtractAudio (preferredcodec preferredquality : str)
| FFmpegVideoConvertor (preferedformat : str).

(** The dict [get_format_opts] returns; [None] in [fo_postprocessors] is an
    absent ['postprocessors'] key. *)
Record format_opts := {
  fo_format : str;
  fo_postprocessors : option (list postprocessor);
}.

Definition audio_formats : list str :=
  [py "mp3"; py "aac"; py "flac"; py "wav"; py "ogg"].

Definition quality_map : gmap str str :=
  list_to_map
    [ (py "360", py "bestvideo[height<=360]+bestaudio/best[height<=360]");
      (py "480", py "bestvideo[height<=480]+bestaudio/best[height<=480]");
      (py "720", py "bestvideo[height<=720]+bestaudio/best[height<=720]");
      (py "1080", py "bestvideo[height<=1080]+bestaudio/best[height<=1080]");
      (py "1440", py "bestvideo[height<=1440]+bestaudio/best[height<=1440]");
      (py "2160", py "bestvideo[height<=2160]+bestaudio/best[height<=2160]") ].

Definition get_format_opts (format quality : str) : exn + format_opts :=
  if bool_decide (format ∈ audio_formats) then
    inr {| fo_format := py "bestaudio/best";
           fo_postprocessors :=
             Some [FFmpegExtractAudio format (py "320")] |}
  else
    match subscript quality_map (py "720") with
    | inl e => inl e
    | inr dflt =>
        let format_string := dict_get quality_map quality dflt in
        let opts := {| fo_format := format_string;
                       fo_postprocessors := None |} in
        if bool_decide (format ≠ py "mp4") then
          inr {| fo_format := fo_format opts;
                 fo_postprocessors :=
                   Some [FFmpegVideoConvertor format] |}
        else inr opts
    end.

(** ** Requests, engine options and responses *)

Record DownloadRequest := {
  url : str;
  format : str;
  quality : option str;
  start_time : option str;
  end_time : option str;
}.

Record VideoInfo := { info_url : str }.

(** Truth value of an [Optional[str]]: [None] and [''] are false. *)
Definition truthy (o : option str) : bool :=
  match o with
  | Some (_ :: _) => true
  | _ => false
  end.

(** [o or dflt] *)
Definition or_else (o : option str) (dflt : str) : str :=
  match o with
  | Some (c :: s) => c :: s
  | _ => dflt
  end.

(** [l.extend([flag, v])], run only when [v] is truthy. *)
Definition extend_if (l : list str) (flag : str) (v : option str) : list str :=
  match v with
  | Some (c :: s) => l ++ [flag; c :: s]
  | _ => l
  end.

(** The options dict handed to [yt_dlp.YoutubeDL]; an absent key is
    [None]. *)
Record ydl_opts := {
  yo_format : str;
  yo_postprocessors : option (list postprocessor);
  yo_quiet : bool;
  yo_no_warnings : bool;
  yo_outtmpl : str;
  yo_postprocessor_args : option (list str);
}.

Definition set_outtmpl (o : ydl_opts) (p : str) : ydl_opts :=
  {| yo_format := yo_format o;
     yo_postprocessors := yo_postprocessors o;
     yo_quiet := yo_quiet o;
     yo_no_warnings := yo_no_warnings o;
     yo_outtmpl := p;
     yo_postprocessor_args := yo_postprocessor_args o |}.

Definition set_postprocessor_args (o : ydl_opts) (a : list str) : ydl_opts :=
  {| yo_format := yo_format o;
     yo_postprocessors := yo_postprocessors o;
     yo_quiet := yo_quiet o;
     yo_no_warnings := yo_no_warnings o;
     yo_outtmpl := yo_outtmpl o;
     yo_postprocessor_args := Some a |}.

Record HTTPException := { status_code : Z; detail : str }.

Record InfoData := {
  title : pyval;
  thumbnail : pyval;
  duration : pyval;
  channel : pyval;
  view_count : pyval;
  description : str;
  formats : list (str * str);
}.

Record InfoResponse := { success : bool; data : InfoData }.

(** One element of the [results] list of [/batch-info]. *)
Inductive BatchEntry :=
| EntryOk (u : str) (e_title e_thumbnail e_duration : pyval)
| EntryErr (u : str) (error : str).

Definition entry_url (e : BatchEntry) : str :=
  match e with EntryOk u _ _ _ | EntryErr u _ => u end.

Definition entry_success (e : BatchEntry) : bool :=
  match e with EntryOk _ _ _ _ => true | EntryErr _ _ => false end.

Record BatchResponse := { results : list BatchEntry }.

(** The generator object [generate()] returns.  It closes over [ydl_opts]
    and [request]; its frame is either not started, suspended at the
    [yield] (with the temporary path and the unread rest of the open file),
    or finished. *)
Inductive gen_frame :=
| GenCreated
| GenSuspended (tmp_path : str) (f : bytes)
| GenFinished.

Record generator := {
  gen_opts : ydl_opts;
  gen_request : DownloadRequest;
  gen_at : gen_frame;
}.

Inductive gen_result :=
| Yield (chunk : bytes)
| StopIteration
| Raised (e : exn).

Record StreamingResponse := {
  resp_status : Z;
  body : generator;
  media_type : str;
  headers : list (str * str);
}.

Definition content_types : gmap str str :=
  list_to_map
    [ (py "mp4", py "video/mp4");
      (py "webm", py "video/webm");
      (py "mkv", py "video/x-matroska");
      (py "avi", py "video/x-msvideo");
      (py "mp3", py "audio/mpeg");
      (py "aac", py "audio/aac");
      (py "flac", py "audio/flac");
      (py "wav", py "audio/wav");
      (py "ogg", py "audio/ogg") ].

Definition octet_stream : str := py "application/octet-stream".

(** [f.read(1024 * 1024)] reads at most this many bytes. *)
Definition chunk_size : nat := 1024 * 1024.

(** ** Test doubles

    A deterministic engine with no state of its own, used where a statement
    is evaluated on a concrete request. *)
Module Fixture.

Definition clip_info : gmap str pyval :=
  list_to_map
    [ (py "title", PyStr (py "Clip: Test/2024!"));
      (py "duration", PyInt 95);
      (py "uploader", PyStr (py "tester"));
      (py "description", PyStr (py "short text")) ].

Definition punct_info : gmap str pyval :=
  {[ py "title" := PyStr (py "!!!") ]}.

Definition long_info : gmap str pyval :=
  list_to_map
    [ (py "title", PyStr (py "Long"));
      (py "description", PyStr (replicate 1000 97%N)) ].

Definition unresolved : exn :=
  PyExn (py "DownloadError") (py "ERROR: not-a-url is not a valid URL").

Definition transcode_failed : exn :=
  PyExn (py "PostProcessingError") (py "ERROR: Postprocessing: Conversion failed!").

Definition extract_info (u : str) (n : unit) : (exn + gmap str pyval) * unit :=
  if bool_decide (u = py "not-a-url") then (inl unresolved, n)
  else if bool_decide (u = py "https://valid/punct") then (inr punct_info, n)
  else if bool_decide (u = py "https://valid/long") then (inr long_info, n)
  else (inr clip_info, n).

Definition artifact : bytes := [x4d; x37; x58].

Definition download_ok (o : ydl_opts) (u : str) (n : unit) : (exn + bytes) * unit :=
  (inr artifact, n).

Definition download_fails (o : ydl_opts) (u : str) (n : unit) : (exn + bytes) * unit :=
  (inl transcode_failed, n).

Definition mktemp (files : gmap str bytes) (suffix : str) : exn + str :=
  if bool_decide (47%N ∈ suffix)
  then inl (FileNotFoundError (py "/tmp/tmpk3v9x2q1" ++ suffix))
  else inr (py "/tmp/tmpk3v9x2q1" ++ suffix).

Definition no_unicode (c : char) : bool := false.

Definition request (u : str) : DownloadRequest :=
  {| url := u; format := py "mp4"; quality := Some (py "720");
     start_time := None; end_time := None |}.

End Fixture.

(** Further test doubles: an engine whose records carry [None] under
    ['title'] and ['description'], and a request that asks for a trimmed
    mkv without naming a quality. *)
Module NullFixture.

Definition null_info : gmap str pyval :=
  list_to_map
    [ (py "title", PyNone);
      (py "description", PyNone);
      (py "duration", PyInt 12) ].

Definition extract_info (u : str) (n : unit) : (exn + gmap str pyval) * unit :=
  (inr null_info, n).

Definition trim_request : DownloadRequest :=
  {| url := py "https://valid/1"; format := py "mkv"; quality := None;
     start_time := Some (py "00:01:30"); end_time := Some [] |}.

End NullFixture.

(** ** The service *)

Section Service.

(** The interpreter's Unicode database, consulted by [str.isalnum] above
    the ASCII range. *)
Variable unicode_alnum : char -> bool.

(** The extraction engine.  [Net] is whatever the engine's answers depend
    on (the network, the sites); [extract_info] is
    [YoutubeDL.extract_info(url, download=False)] and returns the metadata
    dict or raises; [ydl_download] is [YoutubeDL.download([url])] and
    returns the bytes of the finished artifact, which the engine writes
    to [outtmpl], or raises. *)
Variable Net : Type.
Variable extract_info : str -> Net -> (exn + gmap str pyval) * Net.
Variable ydl_download : ydl_opts -> str -> Net -> (exn + bytes) * Net.

(** What [tempfile.NamedTemporaryFile] does, given the files that exist and
    the requested suffix: the name of the file it creates, or the exception
    it raises when no file can be created under a name with that suffix (a
    suffix with a path separator, a name that is too long, a full disk). *)
Variable mktemp : gmap str bytes -> str -> exn + str.

Record state := { fs : gmap str bytes; net : Net }.

(** Computations that read and write the state and may raise an [E]. *)
Definition M (E A : Type) : Type := state -> (E + A) * state.

Definition ret {E A} (a : A) : M E A := fun st => (inr a, st).

Definition raise {E A} (e : E) : M E A := fun st => (inl e, st).

Definition bind {E A B} (m : M E A) (k : A -> M E B) : M E B :=
  fun st =>
    match m st with
    | (inl e, st') => (inl e, st')
    | (inr a, st') => k a st'
    end.

(** [try: m  except Exception as e: h e] *)
Definition try_except {E E' A} (m : M E A) (h : E -> M E' A) : M E' A :=
  fun st =>
    match m st with
    | (inl e, st') => h e st'
    | (inr a, st') => (inr a, st')
    end.

Definition lift {E A} (r : E + A) : M E A := fun st => (r, st).

Notation "'do' x <- m ; k" := (bind m (fun x => k))
  (at level 10, x name, m at level 100, k at level 200).

(** *** Primitive effects *)

Definition YoutubeDL_extract_info (u : str) : M exn (gmap str pyval) :=
  fun st =>
    let (r, n) := extract_info u (net st) in
    (r, {| fs := fs st; net := n |}).

Definition YoutubeDL_download (o : ydl_opts) (u : str) : M exn unit :=
  fun st =>
    match ydl_download o u (net st) with
    | (inl e, n) => (inl e, {| fs := fs st; net := n |})
    | (inr artifact, n) =>
        (inr tt, {| fs := <[yo_outtmpl o := artifact]> (fs st); net := n |})
    end.

(** [with tempfile.NamedTemporaryFile(delete=False, suffix=...) as tmp:
    tmp_path = tmp.name]: an empty file is created and stays after the
    handle is closed; when the file cannot be created the call raises and
    nothing is created. *)
Definition NamedTemporaryFile (suffix : str) : M exn str :=
  fun st =>
    match mktemp (fs st) suffix with
    | inr p => (inr p, {| fs := <[p := []]> (fs st); net := net st |})
    | inl e => (inl e, st)
    end.

(** [open(p, 'rb')]: the handle is modelled by the bytes not yet read. *)
Definition open_rb (p : str) : M exn bytes :=
  fun st =>
    match fs st !! p with
    | Some content => (inr content, st)
    | None => (inl (FileNotFoundError p), st)
    end.

Definition os_unlink (p : str) : M exn unit :=
  fun st =>
    match fs st !! p with
    | Some _ => (inr tt, {| fs := delete p (fs st); net := net st |})
    | None => (inl (FileNotFoundError p), st)
    end.

(** *** [/info] *)

(** [v[:500]] *)
Definition slice500 (v : pyval) : exn + str :=
  match v with
  | PyStr s => inr (slice_to 500 s)
  | _ => inl (TypeError v (py "subscriptable"))
  end.

Definition info_get (info : gmap str pyval) (k : str) : pyval :=
  dict_get info k PyNone.

Definition advertised_formats : list (str * str) :=
  [ (py "360p", py "mp4"); (py "480p", py "mp4");
    (py "720p", py "mp4"); (py "1080p", py "mp4") ].

Definition get_video_info (request : VideoInfo) : M HTTPException InfoResponse :=
  try_except
    (do info <- YoutubeDL_extract_info (info_url request);
     do d <- lift (slice500 (dict_get info (py "description") (PyStr [])));
     ret {| success := true;
            data := {| title := info_get info (py "title");
                       thumbnail := info_get info (py "thumbnail");
                       duration := info_get info (py "duration");
                       channel := info_get info (py "uploader");
                       view_count := info_get info (py "view_count");
                       description := d;
                       formats := advertised_formats |} |})
    (fun e => raise {| status_code := 400; detail := str_of_exn e |}).

(** *** [/batch-info] *)

(** What the specification asks of the entry for [u]: success with the
    metadata subset when the engine answered, failure with the message of
    the error when it raised. *)
Definition entry_for (u : str) (r : exn + gmap str pyval) : BatchEntry :=
  match r with
  | inr info => EntryOk u (info_get info (py "title"))
                          (info_get info (py "thumbnail"))
                          (info_get info (py "duration"))
  | inl e => EntryErr u (str_of_exn e)
  end.

(** The engine's state after it was asked about each of [urls] in turn. *)
Fixpoint net_after (urls : list str) (n : Net) : Net :=
  match urls with
  | [] => n
  | u :: rest => net_after rest (extract_info u n).2
  end.

(** The body of [for url in urls:] for one [url], appending to
    [results]. *)
Definition batch_step (results : list BatchEntry) (u : str)
  : M exn (list BatchEntry) :=
  try_except
    (do info <- YoutubeDL_extract_info u;
     ret (results ++ [EntryOk u (info_get info (py "title"))
                                (info_get info (py "thumbnail"))
                                (info_get info (py "duration"))]))
    (fun e => ret (results ++ [EntryErr u (str_of_exn e)])).

Fixpoint batch_loop (urls : list str) (results : list BatchEntry)
  : M exn (list BatchEntry) :=
  match urls with
  | [] => ret results
  | u :: rest =>
      do results' <- batch_step results u;
      batch_loop rest results'
  end.

Definition get_batch_info (urls : list str) : M exn BatchResponse :=
  do rs <- batch_loop urls [];
  ret {| results := rs |}.

(** *** [/download] *)

(** [c.isalnum() or c in (' ', '-', '_')] *)
Definition keeps (c : char) : bool :=
  isalnum unicode_alnum c || bool_decide (c ∈ [32; 45; 95]%N).

(** ["".join(c for c in title if ...).rstrip()] on a [str]. *)
Definition sanitize (t : str) : str := rstrip (List.filter keeps t).

Definition safe_title_of (v : pyval) : exn + str :=
  match v with
  | PyStr t => inr (sanitize t)
  | _ => inl (TypeError v (py "iterable"))
  end.

(** One pass of [while chunk := f.read(1024 * 1024): yield chunk], entered
    with [f] the unread rest of the file; when the loop ends the file is
    unlinked and the generator returns. *)
Definition read_loop (g : generator) (tmp_path : str) (f : bytes)
  : state -> (gen_result * generator) * state :=
  fun st =>
    let with_frame fr :=
      {| gen_opts := gen_opts g; gen_request := gen_request g; gen_at := fr |} in
    match take chunk_size f with
    | [] =>
        match os_unlink tmp_path st with
        | (inr _, st') => ((StopIteration, with_frame GenFinished), st')
        | (inl e, st') => ((Raised e, with_frame GenFinished), st')
        end
    | chunk =>
        ((Yield chunk, with_frame (GenSuspended tmp_path (drop chunk_size f))), st)
    end.

(** [next(g)] on the generator made by [generate()]. *)
Definition gen_next (g : generator) : state -> (gen_result * generator) * state :=
  fun st =>
    let request := gen_request g in
    match gen_at g with
    | GenCreated =>
        let started :=
          do tmp_path <- NamedTemporaryFile (py "." ++ format request);
          let opts := set_outtmpl (gen_opts g) tmp_path in
          do _ <- YoutubeDL_download opts (url request);
          do f <- open_rb tmp_path;
          ret (opts, tmp_path, f) in
        match started st with
        | (inr (opts, tmp_path, f), st') =>
            read_loop {| gen_opts := opts; gen_request := request;
                         gen_at := GenCreated |} tmp_path f st'
        | (inl e, st') =>
            ((Raised e,
              {| gen_opts := gen_opts g; gen_request := request;
                 gen_at := GenFinished |}), st')
        end
    | GenSuspended tmp_path f => read_loop g tmp_path f st
    | GenFinished => ((StopIteration, g), st)
    end.

(** [g.close()]: [GeneratorExit] is raised at the [yield].  It is not an
    [Exception], so the [except] clause does not see it; the [with] blocks
    close the file handle and the engine, and the generator is finished.
    No statement on that way out touches the file system. *)
Definition gen_close (g : generator) : state -> generator * state :=
  fun st =>
    ({| gen_opts := gen_opts g; gen_request := gen_request g;
        gen_at := GenFinished |}, st).

(** A consumer that asks for at most [n] items and then closes the
    generator (the server iterating the response body until the stream
    ends or the client is gone).  Returns the chunks it got and the
    exception that ended the stream, if any. *)
Fixpoint consume (n : nat) (g : generator)
  : state -> (list bytes * option exn) * state :=
  fun st =>
    match n with
    | 0 => (([], None), snd (gen_close g st))
    | S n' =>
        match gen_next g st with
        | ((Yield chunk, g'), st') =>
            let '((chunks, r), st'') := consume n' g' st' in
            ((chunk :: chunks, r), st'')
        | ((StopIteration, _), st') => (([], None), st')
        | ((Raised e, _), st') => (([], Some e), st')
        end
    end.

Definition generate (opts : ydl_opts) (request : DownloadRequest) : generator :=
  {| gen_opts := opts; gen_request := request; gen_at := GenCreated |}.

(** The options built by the handler before the engine is asked for
    metadata: the resolved directives, the fixed flags, and the trimming
    arguments when a bound is given. *)
Definition build_ydl_opts (format_opts : format_opts)
    (request : DownloadRequest) : ydl_opts :=
  let ydl_opts :=
    {| yo_format := fo_format format_opts;
       yo_postprocessors := fo_postprocessors format_opts;
       yo_quiet := true;
       yo_no_warnings := true;
       yo_outtmpl := py "-";
       yo_postprocessor_args := None |} in
  let postprocessor_args : list str := [] in
  if truthy (start_time request) || truthy (end_time request) then
    let postprocessor_args :=
      extend_if postprocessor_args (py "-ss") (start_time request) in
    let postprocessor_args :=
      extend_if postprocessor_args (py "-to") (end_time request) in
    set_postprocessor_args ydl_opts postprocessor_args
  else ydl_opts.

Definition content_disposition (filename : str) : str :=
  py "attachment; filename=" ++ [34%N] ++ filename ++ [34%N].

(** What building the response does with the headers it is given (their
    names are ASCII literals here): each value is encoded, in order, and
    then the media type. *)
Fixpoint init_headers (headers : list (str * str)) (media_type : str)
  : exn + unit :=
  match headers with
  | [] => encode_latin1 media_type
  | (_, v) :: rest =>
      match encode_latin1 v with
      | inl e => inl e
      | inr _ => init_headers rest media_type
      end
  end.

Definition download_video (request : DownloadRequest)
  : M HTTPException StreamingResponse :=
  try_except
    (do format_opts <-
       lift (get_format_opts (format request)
                             (or_else (quality request) (py "720")));
     let ydl_opts := build_ydl_opts format_opts request in
     do info <- YoutubeDL_extract_info (url request);
     let title := dict_get info (py "title") (PyStr (py "video")) in
     do safe_title <- lift (safe_title_of title);
     let ydl_opts := set_outtmpl ydl_opts (py "-") in
     let content_type :=
       dict_get content_types (format request) octet_stream in
     let filename := safe_title ++ py "." ++ format request in
     let response_headers :=
       [ (py "Content-Disposition", content_disposition filename);
         (py "Access-Control-Expose-Headers", py "Content-Disposition") ] in
     do _ <- lift (init_headers response_headers content_type);
     ret {| resp_status := 200;
            body := generate ydl_opts request;
            media_type := content_type;
            headers := response_headers |})
    (fun e => raise {| status_code := 500; detail := str_of_exn e |}).

(** The response the handler builds once the title is sanitized. *)
Definition download_response (opts : ydl_opts) (request : DownloadRequest)
    (safe_title : str) : StreamingResponse :=
  {| resp_status := 200;
     body := generate opts request;
     media_type := dict_get content_types (format request) octet_stream;
     headers :=
       [ (py "Content-Disposition",
          content_disposition (safe_title ++ py "." ++ format request));
         (py "Access-Control-Expose-Headers", py "Content-Disposition") ] |}.

(** ** Properties of the format resolver *)

Lemma quality_map_720 :
  subscript quality_map (py "720")
  = inr (py "bestvideo[height<=720]+bestaudio/best[height<=720]").
Proof. vm_compute. reflexivity. Qed.

Lemma quality_map_unknown (quality : str) :
  quality ∉ [py "360"; py "480"; py "720"; py "1080"; py "1440"; py "2160"] →
  quality_map !! quality = None.
Proof.
  intros Hq. unfold quality_map.
  apply not_elem_of_list_to_map_1. exact Hq.
Qed.

(** The video branch, with the two lookups resolved. *)
Lemma get_format_opts_video (format quality : str) :
  format ∉ audio_formats →
  get_format_opts format quality
  = inr {| fo_format :=
             dict_get quality_map quality
               (py "bestvideo[height<=720]+bestaudio/best[height<=720]");
           fo_postprocessors :=
             if bool_decide (format ≠ py "mp4")
             then Some [FFmpegVideoConvertor format] else None |}.
Proof.
  intros Hf. unfold get_format_opts.
  case_bool_decide; [done|]. rewrite quality_map_720.
  by case_bool_decide.
Qed.

Lemma get_format_opts_audio (format quality : str) :
  format ∈ audio_formats →
  get_format_opts format quality
  = inr {| fo_format := py "bestaudio/best";
           fo_postprocessors := Some [FFmpegExtractAudio format (py "320")] |}.
Proof.
  intros Hf. unfold get_format_opts.
  by case_bool_decide.
Qed.

Lemma get_format_opts_returns (format quality : str) :
  ∃ d, get_format_opts format quality = inr d.
Proof.
  destruct (decide (format ∈ audio_formats)) as [Hf|Hf].
  - rewrite get_format_opts_audio by done. eauto.
  - rewrite get_format_opts_video by done. eauto.
Qed.

(** C4: [get_format_opts] never raises: every (format, quality) pair of
    strings gets a directive set; and for a video (non-audio) format, a
    quality outside the six known labels gets exactly the directives of
    quality "720". *)
Theorem get_format_opts_total_default (format quality : str) :
  (∃ d, get_format_opts format quality = inr d) ∧
  (format ∉ audio_formats →
   quality ∉ [py "360"; py "480"; py "720"; py "1080"; py "1440"; py "2160"] →
   get_format_opts format quality = get_format_opts format (py "720")).
Proof.
  split; [apply get_format_opts_returns|].
  intros Hf Hq. rewrite !get_format_opts_video by done.
  unfold dict_get at 1. rewrite (quality_map_unknown _ Hq). simpl.
  do 2 f_equal.
Qed.

(** C5: for an audio format the quality argument has no influence: any
    two quality strings give the same directives. *)
Theorem get_format_opts_audio_ignores_quality (format q1 q2 : str) :
  format ∈ audio_formats →
  get_format_opts format q1 = get_format_opts format q2.
Proof. intros Hf. by rewrite !get_format_opts_audio. Qed.

(** C8: a video (non-audio) format other than mp4 gets one container
    conversion step targeting that format; mp4 gets no postprocessing
    step at all. *)
Theorem get_format_opts_conversion (format quality : str) :
  (format ∉ audio_formats → format ≠ py "mp4" →
   ∃ d, get_format_opts format quality = inr d
        ∧ fo_postprocessors d = Some [FFmpegVideoConvertor format]) ∧
  (∃ d, get_format_opts (py "mp4") quality = inr d
        ∧ fo_postprocessors d = None).
Proof.
  split.
  - intros Hf Hmp4. rewrite get_format_opts_video by done.
    eexists; split; [done|]. simpl.
    by case_bool_decide.
  - rewrite get_format_opts_video.
    + by eexists.
    + apply (bool_decide_unpack _). by vm_compute.
Qed.

(** ** Properties of [/info] *)

(** The handler, with the monad unfolded: what it returns for each answer
    of the engine. *)
Lemma get_video_info_unfold (request : VideoInfo) (st : state) :
  get_video_info request st
  = let (r, n) := extract_info (info_url request) (net st) in
    let st' := {| fs := fs st; net := n |} in
    match r with
    | inl e => (inl {| status_code := 400; detail := str_of_exn e |}, st')
    | inr info =>
        match slice500 (dict_get info (py "description") (PyStr [])) with
        | inl e => (inl {| status_code := 400; detail := str_of_exn e |}, st')
        | inr d =>
            (inr {| success := true;
                    data := {| title := info_get info (py "title");
                               thumbnail := info_get info (py "thumbnail");
                               duration := info_get info (py "duration");
                               channel := info_get info (py "uploader");
                               view_count := info_get info (py "view_count");
                               description := d;
                               formats := advertised_formats |} |}, st')
        end
    end.
Proof.
  unfold get_video_info, try_except, bind, lift, ret, raise,
    YoutubeDL_extract_info.
  destruct (extract_info _ _) as [[e|info] n]; [done|].
  by destruct (slice500 _).
Qed.

(** Every way [/info] can fail is an HTTP 400 whose detail is the message
    of the exception that was raised, by the engine or by the slice. *)
Lemma get_video_info_failure (request : VideoInfo) (st st' : state) h :
  get_video_info request st = (inl h, st') →
  status_code h = 400%Z ∧
  ∃ e, detail h = str_of_exn e ∧
       ((extract_info (info_url request) (net st)).1 = inl e ∨
        ∃ info, (extract_info (info_url request) (net st)).1 = inr info
                ∧ slice500 (dict_get info (py "description") (PyStr [])) = inl e).
Proof.
  rewrite get_video_info_unfold.
  destruct (extract_info _ _) as [[e|info] n]; simpl.
  - intros [= <- _]. split; [done|]. exists e. auto.
  - destruct (slice500 _) as [e|d] eqn:Hd; [|done].
    intros [= <- _]. split; [done|]. exists e. split; [done|]. right. eauto.
Qed.

(** The description handling where it works: when the engine's record has
    a string under ['description'], the [/info] output carries its first
    500 characters: unchanged when it has at most 500, exactly 500 long
    otherwise.  When the key is absent the output carries the empty
    string. *)
Theorem description_first_500 (request : VideoInfo) (st : state)
    (info : gmap str pyval) (n' : Net) :
  extract_info (info_url request) (net st) = (inr info, n') →
  (∀ s : str, info !! py "description" = Some (PyStr s) →
     ∃ r, get_video_info request st = (inr r, {| fs := fs st; net := n' |})
          ∧ description (data r) = take 500 s
          ∧ (length s ≤ 500 → description (data r) = s)
          ∧ (500 < length s → length (description (data r)) = 500)) ∧
  (info !! py "description" = None →
     ∃ r, get_video_info request st = (inr r, {| fs := fs st; net := n' |})
          ∧ description (data r) = []).
Proof.
  intros He. split.
  - intros s Hs. rewrite get_video_info_unfold, He. simpl.
    unfold dict_get. rewrite Hs. simpl.
    eexists. split; [done|]. simpl. unfold slice_to.
    split; [done|]. split.
    + intros Hle. by apply take_ge.
    + intros Hlt. rewrite length_take. lia.
  - intros Hs. rewrite get_video_info_unfold, He. simpl.
    unfold dict_get. rewrite Hs. simpl.
    by eexists.
Qed.

(** ** Properties of [/batch-info] *)

Lemma batch_step_unfold (rs : list BatchEntry) (u : str) (st : state) :
  batch_step rs u st
  = (inr (rs ++ [entry_for u (extract_info u (net st)).1]),
     {| fs := fs st; net := (extract_info u (net st)).2 |}).
Proof.
  unfold batch_step, try_except, bind, ret, YoutubeDL_extract_info.
  by destruct (extract_info _ _) as [[e|info] n].
Qed.

(** The loop appends one entry per URL to what it was given, and leaves
    the engine in the state reached by asking about every URL in turn. *)
Lemma batch_loop_spec (urls : list str) :
  ∀ (acc : list BatchEntry) (st : state),
  ∃ new : list BatchEntry,
    batch_loop urls acc st
    = (inr (acc ++ new), {| fs := fs st; net := net_after urls (net st) |})
    ∧ length new = length urls
    ∧ ∀ i u, urls !! i = Some u →
        new !! i
        = Some (entry_for u
                  (extract_info u (net_after (take i urls) (net st))).1).
Proof.
  induction urls as [|u urls IH]; intros acc st; simpl.
  - exists []. rewrite app_nil_r. by destruct st.
  - unfold bind. rewrite batch_step_unfold.
    destruct (IH (acc ++ [entry_for u (extract_info u (net st)).1])
                 {| fs := fs st; net := (extract_info u (net st)).2 |})
      as (new & Hrun & Hlen & Hnth).
    exists (entry_for u (extract_info u (net st)).1 :: new).
    rewrite Hrun. simpl. rewrite <- app_assoc. simpl.
    split; [done|]. split; [by rewrite Hlen|].
    intros [|i] v Hi; simpl in *.
    + by injection Hi as ->.
    + by apply Hnth.
Qed.

Lemma entry_url_entry_for (u : str) r : entry_url (entry_for u r) = u.
Proof. by destruct r. Qed.

(** C2: [/batch-info] never raises; its result list is as long as the
    input; its i-th entry carries the i-th URL; and that entry is decided
    by the engine's answer for that URL alone: success with the metadata
    when the engine answered, failure with the message of the exception
    when it raised, whatever happened to the other URLs. *)
Theorem get_batch_info_positional (urls : list str) (st : state) :
  ∃ rs : list BatchEntry,
    get_batch_info urls st
    = (inr {| results := rs |},
       {| fs := fs st; net := net_after urls (net st) |})
    ∧ length rs = length urls
    ∧ (∀ i u, urls !! i = Some u →
         ∃ e, rs !! i = Some e ∧ entry_url e = u)
    ∧ (∀ i u, urls !! i = Some u →
         let answer := (extract_info u (net_after (take i urls) (net st))).1 in
         match answer with
         | inr info =>
             rs !! i = Some (EntryOk u (info_get info (py "title"))
                                       (info_get info (py "thumbnail"))
                                       (info_get info (py "duration")))
         | inl e => rs !! i = Some (EntryErr u (str_of_exn e))
         end).
Proof.
  destruct (batch_loop_spec urls [] st) as (rs & Hrun & Hlen & Hnth).
  exists rs. unfold get_batch_info, bind, ret. rewrite Hrun. simpl.
  split; [done|]. split; [done|]. split.
  - intros i u Hi. eexists. split; [by apply Hnth|].
    apply entry_url_entry_for.
  - intros i u Hi. simpl. rewrite (Hnth i u Hi).
    by destruct (extract_info _ _) as [[e|info] n].
Qed.

(** ** Properties of the filename sanitization *)

(** [rstrip] cuts off a suffix made of whitespace only ... *)
Lemma rstrip_suffix (s : str) :
  ∃ ws : str, s = rstrip s ++ ws ∧ Forall (λ c, isspace c = true) ws.
Proof.
  induction s as [|c s (ws & Hs & Hws)]; simpl.
  - by exists [].
  - destruct (rstrip s) as [|x r] eqn:Hr.
    + simpl in Hs. subst ws. destruct (isspace c) eqn:Hc.
      * exists (c :: s). split; [done|]. by constructor.
      * by exists s.
    + exists ws. split; [|done]. simpl. by rewrite Hs at 1.
Qed.

(** ... and what is left does not end in whitespace. *)
Lemma rstrip_last (s : str) (c : char) :
  last (rstrip s) = Some c → isspace c = false.
Proof.
  induction s as [|x s IH]; simpl; [done|].
  destruct (rstrip s) as [|y r] eqn:Hr.
  - destruct (isspace x) eqn:Hx; simpl; [done|]. by intros [= <-].
  - intros Hl. apply IH. by rewrite <- Hl.
Qed.

Lemma rstrip_all_space (s : str) :
  Forall (λ c, isspace c = true) s → rstrip s = [].
Proof.
  induction 1 as [|c s Hc _ IH]; simpl; [done|]. by rewrite IH, Hc.
Qed.



(** ** Properties of [/download] *)

(** Encoding raises exactly when some code point is above 255. *)
Lemma first_bad_run_None (s : str) :
  ∀ pos, first_bad_run pos s = None ↔ Forall (λ c, (c ≤ 255)%N) s.
Proof.
  induction s as [|c s IH]; intros pos; simpl; [done|].
  unfold latin1. destruct (N.leb_spec c 255) as [Hc|Hc].
  - rewrite IH. split; [by constructor|]. by inversion 1.
  - split; [done|]. inversion 1; lia.
Qed.

Lemma encode_latin1_ok (s : str) :
  encode_latin1 s = inr tt ↔ Forall (λ c, (c ≤ 255)%N) s.
Proof.
  unfold encode_latin1. rewrite <- (first_bad_run_None s 0).
  by destruct (first_bad_run 0 s) as [[a b]|].
Qed.

Lemma encode_latin1_ascii_literal (s : string) :
  Forall (λ c, (c ≤ 255)%N) (py s).
Proof.
  unfold py. apply Forall_forall. intros c Hc.
  apply list_elem_of_In, in_map_iff in Hc as (a & <- & _).
  pose proof (N_ascii_bounded a). lia.
Qed.

Lemma content_type_encodes (f : str) :
  encode_latin1 (dict_get content_types f octet_stream) = inr tt.
Proof.
  apply encode_latin1_ok. unfold dict_get.
  destruct (content_types !! f) as [m|] eqn:Hm; simpl.
  - apply elem_of_list_to_map_2 in Hm.
    repeat (apply elem_of_cons in Hm as [[= -> ->]|Hm];
            [apply encode_latin1_ascii_literal|]).
    by apply elem_of_nil in Hm.
  - apply encode_latin1_ascii_literal.
Qed.

(** The headers of the response encode exactly when the sanitized title
    and the format hold no code point above 255. *)
Lemma init_headers_filename (safe_title fmt : str) :
  init_headers
    [ (py "Content-Disposition",
       content_disposition (safe_title ++ py "." ++ fmt));
      (py "Access-Control-Expose-Headers", py "Content-Disposition") ]
    (dict_get content_types fmt octet_stream)
  = encode_latin1 (content_disposition (safe_title ++ py "." ++ fmt)).
Proof.
  cbn [init_headers].
  destruct (encode_latin1 (content_disposition _)) as [e|[]]; [done|].
  rewrite (proj2 (encode_latin1_ok (py "Content-Disposition")))
    by apply encode_latin1_ascii_literal.
  apply content_type_encodes.
Qed.

Lemma content_disposition_encodes (safe_title fmt : str) :
  encode_latin1 (content_disposition (safe_title ++ py "." ++ fmt)) = inr tt
  ↔ Forall (λ c, (c ≤ 255)%N) safe_title ∧ Forall (λ c, (c ≤ 255)%N) fmt.
Proof.
  rewrite encode_latin1_ok. unfold content_disposition.
  rewrite !Forall_app.
  pose proof (encode_latin1_ascii_literal "attachment; filename=").
  pose proof (encode_latin1_ascii_literal ".").
  assert (Forall (λ c, (c ≤ 255)%N) [34%N]) by (repeat constructor; lia).
  split.
  - by intros (_ & _ & (Ht & _ & Hf) & _).
  - intros [Ht Hf]. repeat split; assumption.
Qed.

(** The handler, with the monad unfolded.  The only effect is the metadata
    call; the generator it returns has not run. *)
Lemma download_video_unfold (request : DownloadRequest) (st : state) :
  ∃ opts : ydl_opts,
    download_video request st
    = let (r, n) := extract_info (url request) (net st) in
      let st' := {| fs := fs st; net := n |} in
      match r with
      | inl e => (inl {| status_code := 500; detail := str_of_exn e |}, st')
      | inr info =>
          match safe_title_of (dict_get info (py "title") (PyStr (py "video"))) with
          | inl e => (inl {| status_code := 500; detail := str_of_exn e |}, st')
          | inr safe_title =>
              match encode_latin1
                      (content_disposition
                         (safe_title ++ py "." ++ format request)) with
              | inl e =>
                  (inl {| status_code := 500; detail := str_of_exn e |}, st')
              | inr _ => (inr (download_response opts request safe_title), st')
              end
          end
      end.
Proof.
  destruct (get_format_opts_returns (format request)
              (or_else (quality request) (py "720"))) as [d Hd].
  exists (set_outtmpl (build_ydl_opts d request) (py "-")).
  unfold download_video, try_except, bind, lift, ret, raise,
    YoutubeDL_extract_info.
  rewrite Hd.
  destruct (extract_info _ _) as [[e|info] n]; [done|].
  destruct (safe_title_of _) as [e|safe_title]; [done|].
  rewrite init_headers_filename.
  by destruct (encode_latin1 _).
Qed.

(** With metadata whose title is a string, and a sanitized title and
    format that the headers can carry, the handler returns the streaming
    response and has touched nothing but the engine. *)
Lemma download_video_ok (request : DownloadRequest) (st : state)
    (info : gmap str pyval) (n1 : Net) (t : str) :
  extract_info (url request) (net st) = (inr info, n1) →
  dict_get info (py "title") (PyStr (py "video")) = PyStr t →
  Forall (λ c, (c ≤ 255)%N) (sanitize t) →
  Forall (λ c, (c ≤ 255)%N) (format request) →
  ∃ opts : ydl_opts,
    download_video request st
    = (inr (download_response opts request (sanitize t)),
       {| fs := fs st; net := n1 |}).
Proof.
  intros He Ht Hl1 Hl2. destruct (download_video_unfold request st) as [opts ->].
  exists opts. rewrite He, Ht. cbn [safe_title_of].
  by rewrite (proj2 (content_disposition_encodes _ _) (conj Hl1 Hl2)).
Qed.




(** C10: the handler asks the engine for metadata and does nothing else
    to the outside: whatever the outcome, the file system is as it was and
    the engine has seen the metadata call only.  When that call raises,
    the handler raises HTTP 500 with the message, and no file was
    created. *)
Theorem metadata_failure_creates_no_file (request : DownloadRequest) (st : state) :
  (download_video request st).2
  = {| fs := fs st; net := (extract_info (url request) (net st)).2 |} ∧
  (∀ e n', extract_info (url request) (net st) = (inl e, n') →
     download_video request st
     = (inl {| status_code := 500; detail := str_of_exn e |},
        {| fs := fs st; net := n' |})).
Proof.
  destruct (download_video_unfold request st) as [opts ->].
  split.
  - destruct (extract_info _ _) as [[e|info] n]; [done|].
    destruct (safe_title_of _); [done|]. by destruct (encode_latin1 _).
  - by intros e n' ->.
Qed.

(** ** The response body: running [generate()] *)

Lemma chunk_size_pos : 0 < chunk_size.
Proof. unfold chunk_size. lia. Qed.

Local Opaque chunk_size.

Lemma take_chunk_nil (f : bytes) : take chunk_size f = [] → f = [].
Proof.
  pose proof chunk_size_pos. destruct f; [done|].
  destruct chunk_size; [lia|done].
Qed.

Lemma read_loop_end (g : generator) (tmp_path : str) (st : state) content :
  fs st !! tmp_path = Some content →
  read_loop g tmp_path [] st
  = ((StopIteration,
      {| gen_opts := gen_opts g; gen_request := gen_request g;
         gen_at := GenFinished |}),
     {| fs := delete tmp_path (fs st); net := net st |}).
Proof.
  intros Hfs. unfold read_loop, os_unlink.
  rewrite take_nil. by rewrite Hfs.
Qed.

Lemma read_loop_yield (g : generator) (tmp_path : str) (f : bytes) (st : state) :
  f ≠ [] →
  read_loop g tmp_path f st
  = ((Yield (take chunk_size f),
      {| gen_opts := gen_opts g; gen_request := gen_request g;
         gen_at := GenSuspended tmp_path (drop chunk_size f) |}),
     st).
Proof.
  intros Hf. unfold read_loop.
  destruct (take chunk_size f) as [|b chunk] eqn:Hchunk; [|done].
  by apply take_chunk_nil in Hchunk.
Qed.

Lemma gen_next_suspended (g : generator) (tmp_path : str) (f : bytes) :
  gen_at g = GenSuspended tmp_path f →
  gen_next g = read_loop g tmp_path f.
Proof. intros Hg. unfold gen_next. by rewrite Hg. Qed.

Lemma consume_S (n : nat) (g : generator) (st : state) :
  consume (S n) g st
  = match gen_next g st with
    | ((Yield chunk, g'), st') =>
        let '((chunks, r), st'') := consume n g' st' in
        ((chunk :: chunks, r), st'')
    | ((StopIteration, _), st') => (([], None), st')
    | ((Raised e, _), st') => (([], Some e), st')
    end.
Proof. done. Qed.

(** First [next]: the temporary file is created empty, then the engine
    runs.  If the engine raises, the exception leaves the generator and
    the file is still there. *)
Lemma gen_next_download_raises (opts : ydl_opts) (request : DownloadRequest)
    (st : state) (tmp_path : str) (e : exn) (n' : Net) :
  mktemp (fs st) (py "." ++ format request) = inr tmp_path →
  ydl_download (set_outtmpl opts tmp_path) (url request) (net st) = (inl e, n') →
  gen_next (generate opts request) st
  = ((Raised e, {| gen_opts := opts; gen_request := request;
                   gen_at := GenFinished |}),
     {| fs := <[tmp_path := []]> (fs st); net := n' |}).
Proof.
  intros Hm Hd.
  unfold gen_next, generate, bind, NamedTemporaryFile, YoutubeDL_download.
  cbn. rewrite Hm. cbn. by rewrite Hd.
Qed.

(** First [next] when no temporary file can be created: the exception
    leaves the generator, nothing is on disk and the engine was not asked
    to download. *)
Lemma gen_next_tempfile_raises (opts : ydl_opts) (request : DownloadRequest)
    (st : state) (e : exn) :
  mktemp (fs st) (py "." ++ format request) = inl e →
  gen_next (generate opts request) st
  = ((Raised e, {| gen_opts := opts; gen_request := request;
                   gen_at := GenFinished |}), st).
Proof.
  intros Hm. unfold gen_next, generate, bind, NamedTemporaryFile.
  cbn. by rewrite Hm.
Qed.

(** First [next] when the engine succeeds: the artifact is at the
    temporary path and the read loop starts on it. *)
Lemma gen_next_download_returns (opts : ydl_opts) (request : DownloadRequest)
    (st : state) (tmp_path : str) (artifact : bytes) (n' : Net) :
  mktemp (fs st) (py "." ++ format request) = inr tmp_path →
  ydl_download (set_outtmpl opts tmp_path) (url request) (net st)
  = (inr artifact, n') →
  gen_next (generate opts request) st
  = read_loop {| gen_opts := set_outtmpl opts tmp_path; gen_request := request;
                 gen_at := GenCreated |} tmp_path artifact
      {| fs := <[tmp_path := artifact]> (<[tmp_path := []]> (fs st));
         net := n' |}.
Proof.
  intros Hm Hd.
  unfold gen_next, generate, bind, NamedTemporaryFile, YoutubeDL_download,
    open_rb, ret.
  cbn. rewrite Hm. cbn. rewrite Hd. cbn.
  by rewrite lookup_insert_eq.
Qed.

(** A consumer that keeps asking drains the file in order and the last
    [next] unlinks it. *)
Lemma consume_drains (n : nat) :
  ∀ (f : bytes) (g : generator) (tmp_path : str) (st : state),
    length f < n →
    is_Some (fs st !! tmp_path) →
    gen_at g = GenSuspended tmp_path f →
    ∃ chunks : list bytes,
      consume n g st
      = ((chunks, None), {| fs := delete tmp_path (fs st); net := net st |})
      ∧ concat chunks = f.
Proof.
  induction n as [|n IH]; intros f g tmp_path st Hlen [content Hfs] Hg; [lia|].
  rewrite consume_S, (gen_next_suspended g tmp_path f Hg).
  destruct (decide (f = [])) as [->|Hf].
  - rewrite (read_loop_end _ _ _ _ Hfs). by exists [].
  - rewrite read_loop_yield by done.
    assert (length (drop chunk_size f) < n) as Hlen'.
    { rewrite length_drop. pose proof chunk_size_pos.
      destruct f; simpl in *; [done|lia]. }
    edestruct (IH (drop chunk_size f)) as (chunks & -> & Hcat);
      [exact Hlen'|by eexists|done|].
    exists (take chunk_size f :: chunks). split; [done|].
    simpl concat. rewrite Hcat. apply take_drop.
Qed.

(** The way through with no failure and a patient consumer: the chunks
    are the artifact, and the temporary file is gone at the end. *)
Lemma consume_whole_stream (opts : ydl_opts) (request : DownloadRequest)
    (st : state) (tmp_path : str) (artifact : bytes) (n' : Net) (k : nat) :
  mktemp (fs st) (py "." ++ format request) = inr tmp_path →
  ydl_download (set_outtmpl opts tmp_path) (url request) (net st)
  = (inr artifact, n') →
  length artifact < k →
  ∃ chunks st',
    consume (S k) (generate opts request) st = ((chunks, None), st')
    ∧ concat chunks = artifact
    ∧ fs st' !! tmp_path = None.
Proof.
  intros Hm Hd Hk.
  set (st1 := {| fs := <[tmp_path := artifact]> (<[tmp_path := []]> (fs st));
                 net := n' |}).
  assert (fs st1 !! tmp_path = Some artifact) as Hsome
    by (simpl; by rewrite lookup_insert_eq).
  rewrite consume_S.
  rewrite (gen_next_download_returns opts request st tmp_path artifact n' Hm Hd).
  fold st1.
  destruct (decide (artifact = [])) as [->|Hf].
  - rewrite (read_loop_end _ _ _ _ Hsome).
    eexists [], _. split; [done|]. split; [done|]. apply lookup_delete_eq.
  - rewrite read_loop_yield by done.
    assert (length (drop chunk_size artifact) < k) as Hlen'
      by (rewrite length_drop; lia).
    edestruct (consume_drains k (drop chunk_size artifact))
      as (chunks & -> & Hcat); [exact Hlen'|by eexists|done|].
    eexists (take chunk_size artifact :: chunks), _.
    split; [done|]. split.
    + simpl concat. rewrite Hcat. apply take_drop.
    + apply lookup_delete_eq.
Qed.

(** A consumer that goes away after the first chunk: the generator is
    closed at the [yield] and the temporary file stays, holding the
    artifact. *)
Lemma disconnect_leaves_file (opts : ydl_opts) (request : DownloadRequest)
    (st : state) (tmp_path : str) (artifact : bytes) (n' : Net) :
  mktemp (fs st) (py "." ++ format request) = inr tmp_path →
  ydl_download (set_outtmpl opts tmp_path) (url request) (net st)
  = (inr artifact, n') →
  artifact ≠ [] →
  ∃ st',
    consume 1 (generate opts request) st
    = (([take chunk_size artifact], None), st')
    ∧ fs st' !! tmp_path = Some artifact.
Proof.
  intros Hm Hd Hne. rewrite consume_S.
  rewrite (gen_next_download_returns opts request st tmp_path artifact n' Hm Hd).
  rewrite read_loop_yield by done.
  eexists. split; [done|]. apply lookup_insert_eq.
Qed.

(** Every exception raised while the handler itself runs becomes an
    HTTP 500 whose detail is the exception's message. *)
Lemma download_video_failure (request : DownloadRequest) (st st' : state) h :
  download_video request st = (inl h, st') →
  status_code h = 500%Z ∧
  ∃ e, detail h = str_of_exn e ∧
       ((extract_info (url request) (net st)).1 = inl e ∨
        ∃ info, (extract_info (url request) (net st)).1 = inr info
                ∧ (safe_title_of (dict_get info (py "title") (PyStr (py "video")))
                   = inl e
                   ∨ ∃ safe_title,
                       safe_title_of
                         (dict_get info (py "title") (PyStr (py "video")))
                       = inr safe_title
                       ∧ encode_latin1
                           (content_disposition
                              (safe_title ++ py "." ++ format request))
                         = inl e)).
Proof.
  destruct (download_video_unfold request st) as [opts ->].
  destruct (extract_info _ _) as [[e|info] n]; cbn [fst].
  - intros [= <- _]. split; [done|]. exists e. auto.
  - destruct (safe_title_of _) as [e|d] eqn:Hd.
    + intros [= <- _]. split; [done|]. exists e. split; [done|]. right. eauto.
    + destruct (encode_latin1 _) as [e|[]] eqn:Henc; [|done].
      intros [= <- _]. split; [done|]. exists e. split; [done|].
      right. exists info. split; [done|]. right. eauto.
Qed.

(** C1 (what the code does when the download step fails): the handler
    has returned the response (the headers could be encoded); the first
    [next] on its body creates the temporary file, the engine raises, the
    exception leaves the generator, and the temporary file is still on
    disk, empty, when the stream has ended. *)
Theorem failed_download_leaves_transient_file
    (request : DownloadRequest) (st : state) (info : gmap str pyval)
    (n1 n2 : Net) (t tmp_path : str) (e : exn) :
  extract_info (url request) (net st) = (inr info, n1) →
  dict_get info (py "title") (PyStr (py "video")) = PyStr t →
  Forall (λ c, (c ≤ 255)%N) (sanitize t) →
  Forall (λ c, (c ≤ 255)%N) (format request) →
  mktemp (fs st) (py "." ++ format request) = inr tmp_path →
  (∀ o, ydl_download o (url request) n1 = (inl e, n2)) →
  ∃ resp st1,
    download_video request st = (inr resp, st1) ∧
    ∀ k, ∃ st2,
      consume (S k) (body resp) st1 = (([], Some e), st2) ∧
      fs st2 !! tmp_path = Some [].
Proof.
  intros He Ht Hl1 Hl2 Hm Hd.
  destruct (download_video_ok request st info n1 t He Ht Hl1 Hl2) as [opts ->].
  eexists _, _. split; [done|]. intros k.
  rewrite consume_S. unfold download_response, body.
  rewrite (gen_next_download_raises opts request {| fs := fs st; net := n1 |}
             tmp_path e n2 Hm)
    by apply Hd.
  eexists. split; [done|]. apply lookup_insert_eq.
Qed.

(** C6 (what the code does when the download step fails): the handler
    returns the streaming response with status 200 (the headers could be
    encoded); the exception is raised by the first [next] on the body,
    after the handler's [try]/[except] has been left, and reaches the
    server as it is, not as an HTTP 500: the engine's exception when the
    temporary file was created, the exception of the file creation when it
    was not. *)
Theorem download_failure_escapes_handler
    (request : DownloadRequest) (st : state) (info : gmap str pyval)
    (n1 n2 : Net) (t : str) (e : exn) :
  extract_info (url request) (net st) = (inr info, n1) →
  dict_get info (py "title") (PyStr (py "video")) = PyStr t →
  Forall (λ c, (c ≤ 255)%N) (sanitize t) →
  Forall (λ c, (c ≤ 255)%N) (format request) →
  (∀ o, ydl_download o (url request) n1 = (inl e, n2)) →
  ∃ resp st1,
    download_video request st = (inr resp, st1) ∧
    resp_status resp = 200%Z ∧
    ∃ e' g st2,
      gen_next (body resp) st1 = ((Raised e', g), st2) ∧
      (∀ tmp_path, mktemp (fs st) (py "." ++ format request) = inr tmp_path →
                   e' = e) ∧
      (∀ e0, mktemp (fs st) (py "." ++ format request) = inl e0 → e' = e0).
Proof.
  intros He Ht Hl1 Hl2 Hd.
  destruct (download_video_ok request st info n1 t He Ht Hl1 Hl2) as [opts ->].
  eexists _, _. split; [done|]. split; [done|].
  unfold download_response, body.
  destruct (mktemp (fs st) (py "." ++ format request)) as [e0|tmp_path] eqn:Hm.
  - rewrite (gen_next_tempfile_raises opts request
               {| fs := fs st; net := n1 |} e0) by done.
    eexists _, _, _. split; [done|]. split; [done|]. by intros ? [= <-].
  - rewrite (gen_next_download_raises opts request {| fs := fs st; net := n1 |}
             tmp_path e n2 Hm)
      by apply Hd.
    eexists _, _, _. split; [done|]. split; [|done]. by intros ? [= <-].
Qed.

(** ** Further properties of the format resolver *)

Lemma quality_selector_not_audio (quality : str) :
  dict_get quality_map quality
    (py "bestvideo[height<=720]+bestaudio/best[height<=720]")
  ≠ py "bestaudio/best".
Proof.
  unfold dict_get.
  destruct (quality_map !! quality) as [v|] eqn:Hv; simpl.
  - apply elem_of_list_to_map_2 in Hv.
    repeat (apply elem_of_cons in Hv as [[= -> ->]|Hv];
            [by apply (bool_decide_unpack _); vm_compute|]).
    by apply elem_of_nil in Hv.
  - by apply (bool_decide_unpack _); vm_compute.
Qed.

(** For a video format and one of the six quality labels, the stream
    selector bounds the height by that label, for the video stream and for
    the fallback. *)
Theorem video_selector_bounds_height (format quality : str) :
  format ∉ audio_formats →
  quality ∈ [py "360"; py "480"; py "720"; py "1080"; py "1440"; py "2160"] →
  ∃ d, get_format_opts format quality = inr d
       ∧ fo_format d
         = py "bestvideo[height<=" ++ quality
              ++ py "]+bestaudio/best[height<=" ++ quality ++ py "]".
Proof.
  intros Hf Hq. rewrite get_format_opts_video by done.
  eexists. split; [done|]. cbn [fo_format].
  repeat (apply elem_of_cons in Hq as [->|Hq]; [by vm_compute|]).
  by apply elem_of_nil in Hq.
Qed.

(** The directives tell what kind of format was asked for: the selector is
    "bestaudio/best" exactly for the five audio formats, which get one audio
    extraction step with the format as codec at bitrate "320"; and there is
    no postprocessing step exactly for "mp4". *)
Theorem directives_classify_format (format quality : str) (d : format_opts) :
  get_format_opts format quality = inr d →
  (format ∈ audio_formats ↔ fo_format d = py "bestaudio/best") ∧
  (format ∈ audio_formats
   ↔ fo_postprocessors d = Some [FFmpegExtractAudio format (py "320")]) ∧
  (format = py "mp4" ↔ fo_postprocessors d = None).
Proof.
  destruct (decide (format ∈ audio_formats)) as [Hf|Hf].
  - rewrite get_format_opts_audio by done. intros [= <-]. cbn.
    split; [done|]. split; [done|]. split; [|done].
    intros ->. exfalso. revert Hf. by apply (bool_decide_unpack _); vm_compute.
  - rewrite get_format_opts_video by done. intros [= <-]. cbn.
    split; [|split].
    + split; [done|]. intros Hs. by apply quality_selector_not_audio in Hs.
    + split; [done|]. by case_bool_decide.
    + case_bool_decide as Hmp4; [done|]. split; [done|]. intros _.
      by destruct (decide (format = py "mp4")).
Qed.

(** Two video formats asked at the same quality fetch the same streams:
    the container only decides the conversion step. *)
Theorem video_selector_ignores_container (f1 f2 quality : str) :
  f1 ∉ audio_formats → f2 ∉ audio_formats →
  ∃ d1 d2, get_format_opts f1 quality = inr d1
           ∧ get_format_opts f2 quality = inr d2
           ∧ fo_format d1 = fo_format d2.
Proof.
  intros H1 H2. rewrite !get_format_opts_video by done.
  by eexists _, _.
Qed.

(** ** Further properties of the filename sanitization *)

Lemma rstrip_fix (s : str) :
  (∀ c, last s = Some c → isspace c = false) → rstrip s = s.
Proof.
  induction s as [|c s IH]; [done|]. intros Hlast. simpl.
  destruct s as [|x s].
  - simpl. by rewrite (Hlast c).
  - rewrite IH; [done|]. intros y Hy. by apply Hlast.
Qed.

Lemma rstrip_idem (s : str) : rstrip (rstrip s) = rstrip s.
Proof. apply rstrip_fix, rstrip_last. Qed.

Lemma filter_all (t : str) :
  Forall (λ c, keeps c = true) t → List.filter keeps t = t.
Proof.
  induction 1 as [|c t Hc _ IH]; simpl; [done|]. by rewrite Hc, IH.
Qed.

Lemma filter_sublist (t : str) : List.filter keeps t `sublist_of` t.
Proof.
  induction t as [|c t IH]; simpl; [constructor|].
  destruct (keeps c); by constructor.
Qed.

Lemma sanitize_all_kept (t : str) : Forall (λ c, keeps c = true) (sanitize t).
Proof.
  apply Forall_forall. intros c Hc. unfold sanitize in Hc.
  destruct (rstrip_suffix (List.filter keeps t)) as (ws & Hs & _).
  assert (c ∈ List.filter keeps t) as Hin
    by (rewrite Hs; apply elem_of_app; by left).
  by apply list_elem_of_In, filter_In in Hin as [_ ?].
Qed.

(** Sanitizing twice is sanitizing once. *)
Theorem sanitize_idempotent (t : str) : sanitize (sanitize t) = sanitize t.
Proof.
  unfold sanitize at 1. rewrite (filter_all _ (sanitize_all_kept t)).
  unfold sanitize. apply rstrip_idem.
Qed.

(** The sanitized title is the title with characters left out: nothing is
    added, replaced or reordered, and it is never longer. *)
Theorem sanitize_sublist (t : str) :
  sanitize t `sublist_of` t ∧ length (sanitize t) ≤ length t.
Proof.
  assert (sanitize t `sublist_of` t) as Hsub.
  { unfold sanitize.
    destruct (rstrip_suffix (List.filter keeps t)) as (ws & Hs & _).
    transitivity (List.filter keeps t); [|apply filter_sublist].
    rewrite Hs at 2. by apply sublist_inserts_r. }
  split; [done|]. by apply sublist_length.
Qed.

(** Below code point 128 the sanitized title holds nothing but ASCII
    letters, digits, space, hyphen and underscore: no double quote, slash,
    backslash, colon, line feed or carriage return, whatever the Unicode
    table says. *)
Theorem sanitize_ascii_safe (t : str) (c : char) :
  c ∈ sanitize t → (c < 128)%N →
  ((48 ≤ c ≤ 57) ∨ (65 ≤ c ≤ 90) ∨ (97 ≤ c ≤ 122)
   ∨ c = 32 ∨ c = 45 ∨ c = 95)%N
  ∧ c ∉ [34; 47; 92; 58; 10; 13]%N.
Proof.
  intros Hc Hlt.
  pose proof (proj1 (Forall_forall _ _) (sanitize_all_kept t) c Hc) as Hk.
  assert ((48 ≤ c ≤ 57) ∨ (65 ≤ c ≤ 90) ∨ (97 ≤ c ≤ 122)
          ∨ c = 32 ∨ c = 45 ∨ c = 95)%N as Hsafe.
  { unfold keeps, isalnum in Hk.
    apply N.ltb_lt in Hlt. rewrite Hlt in Hk.
    apply orb_true_iff in Hk as [Hk|Hk].
    - unfold ascii_isalnum in Hk.
      rewrite !orb_true_iff, !andb_true_iff, !N.leb_le in Hk. lia.
    - apply bool_decide_eq_true in Hk.
      rewrite !elem_of_cons, elem_of_nil in Hk. lia. }
  split; [done|].
  rewrite !not_elem_of_cons. repeat split; try lia. apply not_elem_of_nil.
Qed.

(** A title made of kept characters only, not ending in whitespace, is its
    own sanitized form. *)
Theorem sanitize_clean_title (t : str) :
  Forall (λ c, keeps c = true) t →
  (∀ c, last t = Some c → isspace c = false) →
  sanitize t = t.
Proof.
  intros Hall Hlast. unfold sanitize. rewrite filter_all by done.
  by apply rstrip_fix.
Qed.


(** ** Further properties of [/info] *)

(** [/info] answers with data exactly when the engine resolves the URL and
    the record's description is a string or is missing. *)
Theorem get_video_info_succeeds_iff (request : VideoInfo) (st : state) :
  (∃ r, (get_video_info request st).1 = inr r) ↔
  ∃ info, (extract_info (info_url request) (net st)).1 = inr info
          ∧ (info !! py "description" = None
             ∨ ∃ s, info !! py "description" = Some (PyStr s)).
Proof.
  rewrite get_video_info_unfold.
  destruct (extract_info _ _) as [[e|info] n]; simpl.
  - split; [by intros [r ?]|by intros (info & ? & _)].
  - unfold dict_get.
    destruct (info !! py "description") as [[| |s]|] eqn:Hd; simpl.
    + split; [by intros [r ?]|].
      intros (info' & [= <-] & [?|[s ?]]); congruence.
    + split; [by intros [r ?]|].
      intros (info' & [= <-] & [?|[s ?]]); congruence.
    + split; [|by eexists]. intros _. exists info. split; [done|].
      right. by exists s.
    + split; [|by eexists]. intros _. exists info. split; [done|]. by left.
Qed.

(** A record that has the ['description'] key with value [None] makes
    [/info] fail: the slice raises [TypeError], answered as HTTP 400 with
    its message, although the engine resolved the URL. *)
Theorem null_description_is_bad_request (request : VideoInfo) (st : state)
    (info : gmap str pyval) (n' : Net) :
  extract_info (info_url request) (net st) = (inr info, n') →
  info !! py "description" = Some PyNone →
  get_video_info request st
  = (inl {| status_code := 400;
            detail := py "'NoneType' object is not subscriptable" |},
     {| fs := fs st; net := n' |}).
Proof.
  intros He Hd. rewrite get_video_info_unfold, He. simpl.
  unfold dict_get. by rewrite Hd.
Qed.

(** ** Further properties of [/batch-info] *)

Lemma batch_loop_acc (urls : list str) :
  ∀ (acc : list BatchEntry) (st : state),
    batch_loop urls acc st
    = match batch_loop urls [] st with
      | (inr rs, st') => (inr (acc ++ rs), st')
      | (inl e, st') => (inl e, st')
      end.
Proof.
  induction urls as [|u urls IH]; intros acc st; simpl.
  - unfold ret. by rewrite app_nil_r.
  - unfold bind. rewrite !batch_step_unfold.
    rewrite (IH (acc ++ _)), (IH ([] ++ _)).
    destruct (batch_loop urls [] _) as [[e|rs] st']; [done|].
    by rewrite <- app_assoc.
Qed.

Lemma batch_loop_app (us vs : list str) :
  ∀ (acc : list BatchEntry) (st : state),
    batch_loop (us ++ vs) acc st
    = match batch_loop us acc st with
      | (inr rs, st') => batch_loop vs rs st'
      | (inl e, st') => (inl e, st')
      end.
Proof.
  induction us as [|u us IH]; intros acc st; simpl; [done|].
  unfold bind. rewrite batch_step_unfold. apply IH.
Qed.

(** A batch over two lists one after the other is the batch over the first
    list followed by the batch over the second, started where the first left
    the engine. *)
Theorem get_batch_info_app (us vs : list str) (st : state) :
  ∃ r1 r2 st1 st2,
    get_batch_info us st = (inr {| results := r1 |}, st1)
    ∧ get_batch_info vs st1 = (inr {| results := r2 |}, st2)
    ∧ get_batch_info (us ++ vs) st = (inr {| results := r1 ++ r2 |}, st2).
Proof.
  destruct (batch_loop_spec us [] st) as (r1 & H1 & _).
  set (st1 := {| fs := fs st; net := net_after us (net st) |}) in *.
  destruct (batch_loop_spec vs [] st1) as (r2 & H2 & _).
  exists r1, r2, st1, {| fs := fs st1; net := net_after vs (net st1) |}.
  unfold get_batch_info, bind, ret.
  split; [by rewrite H1|]. split; [by rewrite H2|].
  by rewrite batch_loop_app, H1, batch_loop_acc, H2.
Qed.

(** Whenever [/info] answers for a URL, [/batch-info] on that URL alone,
    from the same state, records a success with the same title, thumbnail
    and duration, and leaves the engine in the same state. *)
Theorem info_success_gives_batch_success (request : VideoInfo)
    (st st' : state) (r : InfoResponse) :
  get_video_info request st = (inr r, st') →
  get_batch_info [info_url request] st
  = (inr {| results := [EntryOk (info_url request) (title (data r))
                                (thumbnail (data r)) (duration (data r))] |},
     st').
Proof.
  rewrite get_video_info_unfold.
  unfold get_batch_info, bind, ret. simpl. unfold bind, ret.
  rewrite batch_step_unfold.
  destruct (extract_info _ _) as [[e|info] n]; simpl; [done|].
  destruct (slice500 _); [done|]. by intros [= <- <-].
Qed.

(** ** Further properties of [/download] *)

Lemma build_ydl_opts_directives (d : format_opts) (request : DownloadRequest) :
  yo_format (build_ydl_opts d request) = fo_format d
  ∧ yo_postprocessors (build_ydl_opts d request) = fo_postprocessors d
  ∧ yo_quiet (build_ydl_opts d request) = true
  ∧ yo_no_warnings (build_ydl_opts d request) = true
  ∧ yo_outtmpl (build_ydl_opts d request) = py "-".
Proof.
  unfold build_ydl_opts.
  by destruct (truthy (start_time request) || truthy (end_time request)).
Qed.

(** The handler's answer with the options spelled out. *)
Lemma download_video_ok_opts (request : DownloadRequest) (st : state)
    (d : format_opts) (info : gmap str pyval) (n1 : Net) (t : str) :
  get_format_opts (format request) (or_else (quality request) (py "720")) = inr d →
  extract_info (url request) (net st) = (inr info, n1) →
  dict_get info (py "title") (PyStr (py "video")) = PyStr t →
  Forall (λ c, (c ≤ 255)%N) (sanitize t) →
  Forall (λ c, (c ≤ 255)%N) (format request) →
  download_video request st
  = (inr (download_response (set_outtmpl (build_ydl_opts d request) (py "-"))
            request (sanitize t)),
     {| fs := fs st; net := n1 |}).
Proof.
  intros Hd He Ht Hl1 Hl2.
  unfold download_video, try_except, bind, lift, ret, raise,
    YoutubeDL_extract_info.
  rewrite Hd, He, Ht. cbn [safe_title_of].
  rewrite init_headers_filename.
  by rewrite (proj2 (content_disposition_encodes _ _) (conj Hl1 Hl2)).
Qed.

(** [/download] returns a response exactly when the engine resolves the
    URL, the record's title (taken as "video" when the key is missing) is a
    string, and neither the sanitized title nor the format holds a code
    point above 255. *)
Theorem download_video_succeeds_iff (request : DownloadRequest) (st : state) :
  (∃ resp, (download_video request st).1 = inr resp) ↔
  ∃ info t,
    (extract_info (url request) (net st)).1 = inr info
    ∧ dict_get info (py "title") (PyStr (py "video")) = PyStr t
    ∧ Forall (λ c, (c ≤ 255)%N) (sanitize t)
    ∧ Forall (λ c, (c ≤ 255)%N) (format request).
Proof.
  destruct (download_video_unfold request st) as [opts ->].
  destruct (extract_info _ _) as [[e|info] n]; cbn [fst].
  - split; [by intros [r ?]|]. by intros (info & t & [=] & _).
  - destruct (dict_get info (py "title") (PyStr (py "video")))
      as [| |t] eqn:Ht; cbn [safe_title_of].
    + split; [by intros [r ?]|].
      intros (info' & t & [= <-] & Ht' & _). congruence.
    + split; [by intros [r ?]|].
      intros (info' & t & [= <-] & Ht' & _). congruence.
    + destruct (encode_latin1 _) as [e|[]] eqn:Henc.
      * split; [by intros [r ?]|].
        intros (info' & t' & [= <-] & Ht' & Hl1 & Hl2).
        rewrite Ht in Ht'. injection Ht' as <-.
        by rewrite (proj2 (content_disposition_encodes _ _) (conj Hl1 Hl2))
          in Henc.
      * split; [|by eexists]. intros _.
        apply content_disposition_encodes in Henc as [Hl1 Hl2].
        by exists info, t.
Qed.

(** A record that has the ['title'] key with value [None] makes
    [/download] fail with HTTP 500 and the [TypeError] message; the file
    system is as before. *)
Theorem null_title_is_server_error (request : DownloadRequest) (st : state)
    (info : gmap str pyval) (n1 : Net) :
  extract_info (url request) (net st) = (inr info, n1) →
  info !! py "title" = Some PyNone →
  download_video request st
  = (inl {| status_code := 500;
            detail := py "'NoneType' object is not iterable" |},
     {| fs := fs st; net := n1 |}).
Proof.
  intros He Ht. destruct (download_video_unfold request st) as [opts ->].
  rewrite He. unfold dict_get. by rewrite Ht.
Qed.

(** The generator the handler returns has not started, closes over the
    request, and carries the resolver's directives for the requested format
    and quality, with the quality read as "720" when it is missing or
    empty. *)
Theorem download_carries_resolved_directives (request : DownloadRequest)
    (st : state) (info : gmap str pyval) (n1 : Net) (t : str) :
  extract_info (url request) (net st) = (inr info, n1) →
  dict_get info (py "title") (PyStr (py "video")) = PyStr t →
  Forall (λ c, (c ≤ 255)%N) (sanitize t) →
  Forall (λ c, (c ≤ 255)%N) (format request) →
  ∃ d resp st1,
    download_video request st = (inr resp, st1)
    ∧ get_format_opts (format request)
        (match quality request with
         | None | Some [] => py "720"
         | Some q => q
         end) = inr d
    ∧ gen_at (body resp) = GenCreated
    ∧ gen_request (body resp) = request
    ∧ yo_format (gen_opts (body resp)) = fo_format d
    ∧ yo_postprocessors (gen_opts (body resp)) = fo_postprocessors d
    ∧ yo_outtmpl (gen_opts (body resp)) = py "-".
Proof.
  intros He Ht Hl1 Hl2.
  destruct (get_format_opts_returns (format request)
              (or_else (quality request) (py "720"))) as [d Hd].
  rewrite (download_video_ok_opts request st d info n1 t Hd He Ht Hl1 Hl2).
  destruct (build_ydl_opts_directives d request) as (Hf & Hp & _ & _ & _).
  exists d. eexists _, _. split; [done|]. split.
  - rewrite <- Hd. unfold or_else. by destruct (quality request) as [[|??]|].
  - by cbn.
Qed.

(** Trimming: the engine options carry ffmpeg arguments only when a bound
    is given and not empty; a start bound gives ["-ss"; start], an end bound
    ["-to"; end], both give the start pair followed by the end pair. *)
Theorem download_trim_arguments (request : DownloadRequest)
    (st : state) (info : gmap str pyval) (n1 : Net) (t : str) :
  extract_info (url request) (net st) = (inr info, n1) →
  dict_get info (py "title") (PyStr (py "video")) = PyStr t →
  Forall (λ c, (c ≤ 255)%N) (sanitize t) →
  Forall (λ c, (c ≤ 255)%N) (format request) →
  ∃ resp st1,
    download_video request st = (inr resp, st1)
    ∧ yo_postprocessor_args (gen_opts (body resp))
      = match start_time request, end_time request with
        | Some (c :: s), Some (c' :: e) => Some [py "-ss"; c :: s; py "-to"; c' :: e]
        | Some (c :: s), _ => Some [py "-ss"; c :: s]
        | _, Some (c' :: e) => Some [py "-to"; c' :: e]
        | _, _ => None
        end.
Proof.
  intros He Ht Hl1 Hl2.
  destruct (get_format_opts_returns (format request)
              (or_else (quality request) (py "720"))) as [d Hd].
  rewrite (download_video_ok_opts request st d info n1 t Hd He Ht Hl1 Hl2).
  eexists _, _. split; [done|]. cbn. unfold build_ydl_opts.
  by destruct (start_time request) as [[|??]|],
              (end_time request) as [[|??]|].
Qed.

(** The MIME table agrees with the resolver on what is audio: each of the
    five audio formats is labelled "audio/...", each other format of the
    table "video/...". *)
Theorem content_type_matches_kind (f : str) :
  (f ∈ audio_formats →
   py "audio/" `prefix_of` dict_get content_types f octet_stream) ∧
  (f ∈ [py "mp4"; py "webm"; py "mkv"; py "avi"; py "mp3";
        py "aac"; py "flac"; py "wav"; py "ogg"] →
   f ∉ audio_formats →
   py "video/" `prefix_of` dict_get content_types f octet_stream).
Proof.
  split.
  - intros Hf. unfold audio_formats in Hf.
    repeat (apply elem_of_cons in Hf as [->|Hf];
            [by apply (bool_decide_unpack _); vm_compute|]).
    by apply elem_of_nil in Hf.
  - intros Hf.
    repeat (apply elem_of_cons in Hf as [->|Hf];
            [by apply (bool_decide_unpack _); vm_compute|]).
    by apply elem_of_nil in Hf.
Qed.


(** ** Further properties of the response body *)

(** Once the engine has written the artifact, the generator behaves as one
    suspended at the start of the file. *)
Lemma consume_generate (opts : ydl_opts) (request : DownloadRequest)
    (st : state) (tmp_path : str) (artifact : bytes) (n' : Net) (k : nat) :
  mktemp (fs st) (py "." ++ format request) = inr tmp_path →
  ydl_download (set_outtmpl opts tmp_path) (url request) (net st)
  = (inr artifact, n') →
  consume (S k) (generate opts request) st
  = consume (S k)
      {| gen_opts := set_outtmpl opts tmp_path; gen_request := request;
         gen_at := GenSuspended tmp_path artifact |}
      {| fs := <[tmp_path := artifact]> (<[tmp_path := []]> (fs st));
         net := n' |}.
Proof.
  intros Hm Hd. rewrite !consume_S.
  rewrite (gen_next_download_returns opts request st tmp_path artifact n' Hm Hd).
  by rewrite (gen_next_suspended _ tmp_path artifact).
Qed.

(** Draining a suspended generator: the chunks are the rest of the file cut
    at every [chunk_size] bytes, and the file is unlinked at the end. *)
Lemma consume_drains_chunks (n : nat) :
  ∀ (f : bytes) (g : generator) (tmp_path : str) (st : state),
    length f < n →
    is_Some (fs st !! tmp_path) →
    gen_at g = GenSuspended tmp_path f →
    ∃ chunks : list bytes,
      consume n g st
      = ((chunks, None), {| fs := delete tmp_path (fs st); net := net st |})
      ∧ concat chunks = f
      ∧ Forall (λ c, c ≠ [] ∧ length c ≤ chunk_size) chunks
      ∧ length f ≤ length chunks * chunk_size
      ∧ length chunks * chunk_size < length f + chunk_size.
Proof.
  pose proof chunk_size_pos as Hpos.
  induction n as [|n IH]; intros f g tmp_path st Hlen [content Hfs] Hg; [lia|].
  rewrite consume_S, (gen_next_suspended g tmp_path f Hg).
  destruct (decide (f = [])) as [->|Hf].
  - rewrite (read_loop_end _ _ _ _ Hfs). exists []. simpl.
    repeat split; [constructor|lia..].
  - rewrite read_loop_yield by done.
    assert (0 < length f) as Hf' by (destruct f; simpl; [done|lia]).
    assert (length (drop chunk_size f) < n) as Hlen'
      by (rewrite length_drop; lia).
    edestruct (IH (drop chunk_size f)) as (chunks & -> & Hcat & Hall & Hlo & Hhi);
      [exact Hlen'|by eexists|done|].
    exists (take chunk_size f :: chunks).
    split; [done|]. split; [simpl concat; rewrite Hcat; apply take_drop|].
    rewrite length_drop in Hlo, Hhi.
    split.
    2:{ cbn [length]. rewrite Nat.mul_succ_l.
        assert (length chunks * chunk_size = 0
                ∨ chunk_size ≤ length chunks * chunk_size)
          by (destruct (length chunks); simpl; lia).
        lia. }
    constructor; [|done]. split.
    + intros Htake. by apply take_chunk_nil in Htake.
    + rewrite length_take. lia.
Qed.

(** A stream read to its end: the chunks, joined, are the artifact the
    engine wrote; each chunk is non-empty and at most 1 MiB; there are as
    many chunks as the artifact has started mebibytes; and when the
    temporary name was unused before, the file system ends as it began. *)
Theorem stream_read_to_end (opts : ydl_opts) (request : DownloadRequest)
    (st : state) (tmp_path : str) (artifact : bytes) (n' : Net) (k : nat) :
  mktemp (fs st) (py "." ++ format request) = inr tmp_path →
  fs st !! tmp_path = None →
  ydl_download (set_outtmpl opts tmp_path) (url request) (net st)
  = (inr artifact, n') →
  length artifact ≤ k →
  ∃ chunks : list bytes,
    consume (S k) (generate opts request) st
    = ((chunks, None), {| fs := fs st; net := n' |})
    ∧ concat chunks = artifact
    ∧ Forall (λ c, c ≠ [] ∧ length c ≤ 1024 * 1024) chunks
    ∧ length artifact ≤ length chunks * (1024 * 1024)
    ∧ length chunks * (1024 * 1024) < length artifact + 1024 * 1024.
Proof.
  intros Hm Hfresh Hd Hk.
  rewrite (consume_generate opts request st tmp_path artifact n' k Hm Hd).
  edestruct (consume_drains_chunks (S k) artifact)
    as (chunks & -> & Hcat & Hall & Hlo & Hhi);
    [lia| |done|].
  { simpl. rewrite lookup_insert_eq. by eexists. }
  exists chunks. split; [|done]. simpl. do 2 f_equal.
  rewrite !delete_insert_eq. by apply delete_id.
Qed.

(** Reading a suspended generator [n] times while the file still has
    bytes, then closing it: [n] chunks come out, a prefix of the file, and
    the state is untouched. *)
Lemma consume_then_close (n : nat) :
  ∀ (f : bytes) (g : generator) (tmp_path : str) (st : state),
    gen_at g = GenSuspended tmp_path f →
    n * chunk_size < length f + chunk_size →
    ∃ chunks : list bytes,
      consume n g st = ((chunks, None), st)
      ∧ length chunks = n
      ∧ concat chunks = take (n * chunk_size) f.
Proof.
  pose proof chunk_size_pos as Hpos.
  induction n as [|n IH]; intros f g tmp_path st Hg Hn.
  - by exists [].
  - rewrite consume_S, (gen_next_suspended g tmp_path f Hg).
    assert (f ≠ []) as Hf by (intros ->; simpl in *; lia).
    rewrite read_loop_yield by done.
    edestruct (IH (drop chunk_size f)) as (chunks & -> & Hlen & Hcat);
      [done|rewrite length_drop; simpl in Hn; lia|].
    exists (take chunk_size f :: chunks).
    split; [done|]. split; [by rewrite <- Hlen|].
    simpl concat. rewrite Hcat. apply take_take_drop.
Qed.

(** A client that goes away after [n] chunks, with [n] at least one and
    the stream not yet at its end: it has received the first [n] mebibytes
    of the artifact, and the temporary file is still on disk with the whole
    artifact in it. *)
Theorem stream_abandoned (opts : ydl_opts) (request : DownloadRequest)
    (st : state) (tmp_path : str) (artifact : bytes) (n' : Net) (n : nat) :
  mktemp (fs st) (py "." ++ format request) = inr tmp_path →
  ydl_download (set_outtmpl opts tmp_path) (url request) (net st)
  = (inr artifact, n') →
  0 < n →
  n * (1024 * 1024) < length artifact + 1024 * 1024 →
  ∃ (chunks : list bytes) (st' : state),
    consume n (generate opts request) st = ((chunks, None), st')
    ∧ length chunks = n
    ∧ concat chunks = take (n * (1024 * 1024)) artifact
    ∧ fs st' !! tmp_path = Some artifact
    ∧ net st' = n'.
Proof.
  intros Hm Hd Hpos Hn. destruct n as [|n]; [lia|].
  rewrite (consume_generate opts request st tmp_path artifact n' n Hm Hd).
  edestruct (consume_then_close (S n) artifact)
    as (chunks & -> & Hlen & Hcat); [done|exact Hn|].
  eexists _, _. split; [done|]. split; [done|]. split; [done|].
  simpl. split; [apply lookup_insert_eq|done].
Qed.

(** A generator that has ended, by exhaustion, by an exception or by
    [close], yields nothing more and does nothing more: no second temporary
    file and no second engine call. *)
Theorem finished_generator_is_inert (g : generator) (st : state) (n : nat) :
  gen_at g = GenFinished →
  consume n g st = (([], None), st).
Proof.
  intros Hg. destruct n as [|n]; [done|].
  rewrite consume_S. unfold gen_next. by rewrite Hg.
Qed.


(** C7 (what the code does when the record holds [None] under
    ['description']): the engine has resolved the URL, but the slice
    [None[:500]] raises; [/info] answers HTTP 400 with the [TypeError]
    message and gives no data at all, while [/batch-info], which does not
    read the description, records a success for the same URL. *)
Theorem null_description_not_surfaced (request : VideoInfo) (st : state)
    (info : gmap str pyval) (n' : Net) :
  extract_info (info_url request) (net st) = (inr info, n') →
  info !! py "description" = Some PyNone →
  (get_video_info request st).1
  = inl {| status_code := 400;
           detail := py "'NoneType' object is not subscriptable" |}
  ∧ (∀ r, (get_video_info request st).1 ≠ inr r)
  ∧ ∃ entry, (get_batch_info [info_url request] st).1
             = inr {| results := [entry] |}
             ∧ entry_success entry = true.
Proof.
  intros He Hd. rewrite get_video_info_unfold, He. cbn [fst].
  unfold dict_get at 1 2. rewrite Hd. cbn [default slice500 fst].
  split; [done|]. split; [done|].
  unfold get_batch_info, bind, ret. cbn [batch_loop]. unfold bind, ret.
  rewrite batch_step_unfold, He. by eexists.
Qed.


End Service.

Arguments fs {Net} _.
Arguments net {Net} _.
Arguments Build_state {Net} _ _.
Arguments get_video_info {Net} extract_info request st.
Arguments get_batch_info {Net} extract_info urls st.
Arguments net_after {Net} extract_info urls n.
Arguments download_video unicode_alnum {Net} extract_info request st.
Arguments gen_next {Net} ydl_download mktemp g st.
Arguments consume {Net} ydl_download mktemp n g st.

(** ** The statements on concrete requests *)

Module Checks.
Import Fixture.

Local Abbreviation st0 := ({| fs := ∅; net := tt |} : state unit).

(** The examples of the specification, run on the test engine. *)

Example sanitize_clip :
  sanitize no_unicode (py "Clip: Test/2024!") = py "Clip Test2024".
Proof. vm_compute. reflexivity. Qed.

Example sanitize_trailing_space :
  sanitize no_unicode (py "My video - part_2 ?! ") = py "My video - part_2".
Proof. vm_compute. reflexivity. Qed.

Example batch_three :
  ∃ rs, (get_batch_info extract_info
           [py "https://valid/1"; py "not-a-url"; py "https://valid/2"] st0).1
        = inr {| results := rs |}
        ∧ entry_success <$> rs = [true; false; true].
Proof. vm_compute. eexists. split; reflexivity. Qed.

Example long_description_cut :
  ∃ r, (get_video_info extract_info {| info_url := py "https://valid/long" |} st0).1
       = inr r
       ∧ length (description (data r)) = 500.
Proof. vm_compute. eexists. split; reflexivity. Qed.

Example filename_clip :
  ∃ resp, (download_video no_unicode extract_info
             (request (py "https://valid/1")) st0).1 = inr resp
          ∧ headers resp !! 0
            = Some (py "Content-Disposition",
                    py "attachment; filename=" ++ [34%N]
                       ++ py "Clip Test2024.mp4" ++ [34%N]).
Proof. vm_compute. eexists. split; reflexivity. Qed.

(** C4 at format "webm", quality "999". *)
Lemma get_format_opts_total_default_witness :
  (py "webm" ∉ audio_formats) ∧
  (py "999" ∉ [py "360"; py "480"; py "720"; py "1080"; py "1440"; py "2160"]) ∧
  get_format_opts (py "webm") (py "999") = get_format_opts (py "webm") (py "720").
Proof.
  assert (py "webm" ∉ audio_formats) as Hf
    by (apply (bool_decide_unpack _); vm_compute; exact I).
  assert (py "999" ∉ [py "360"; py "480"; py "720"; py "1080"; py "1440"; py "2160"])
    as Hq by (apply (bool_decide_unpack _); vm_compute; exact I).
  split; [exact Hf|]. split; [exact Hq|].
  exact (proj2 (get_format_opts_total_default (py "webm") (py "999")) Hf Hq).
Defined.

(** C5 at "mp3" with qualities "360" and "1080". *)
Lemma get_format_opts_audio_ignores_quality_witness :
  py "mp3" ∈ audio_formats ∧
  get_format_opts (py "mp3") (py "360") = get_format_opts (py "mp3") (py "1080").
Proof.
  assert (py "mp3" ∈ audio_formats) as Hf
    by (apply (bool_decide_unpack _); vm_compute; exact I).
  split; [exact Hf|].
  exact (get_format_opts_audio_ignores_quality (py "mp3") (py "360") (py "1080") Hf).
Defined.

(** C8 at format "webm". *)
Lemma get_format_opts_conversion_witness :
  (py "webm" ∉ audio_formats) ∧ py "webm" ≠ py "mp4" ∧
  ∃ d, get_format_opts (py "webm") (py "720") = inr d
       ∧ fo_postprocessors d = Some [FFmpegVideoConvertor (py "webm")].
Proof.
  assert (py "webm" ∉ audio_formats) as Hf
    by (apply (bool_decide_unpack _); vm_compute; exact I).
  assert (py "webm" ≠ py "mp4") as Hne
    by (apply (bool_decide_unpack _); vm_compute; exact I).
  split; [exact Hf|]. split; [exact Hne|].
  exact (proj1 (get_format_opts_conversion (py "webm") (py "720")) Hf Hne).
Defined.




(** C10 at a URL the engine cannot resolve. *)
Lemma metadata_failure_creates_no_file_witness :
  extract_info (py "not-a-url") tt = (inl unresolved, tt) ∧
  download_video no_unicode extract_info (request (py "not-a-url")) st0
  = (inl {| status_code := 500; detail := str_of_exn unresolved |}, st0).
Proof.
  assert (extract_info (py "not-a-url") tt = (inl unresolved, tt)) as He
    by (vm_compute; reflexivity).
  split; [exact He|].
  exact (proj2 (metadata_failure_creates_no_file no_unicode unit extract_info
                  (request (py "not-a-url")) st0) unresolved tt He).
Defined.

(** The description of ten characters of the test record comes out
    unchanged. *)
Lemma description_first_500_witness :
  extract_info (py "https://valid/1") tt = (inr clip_info, tt) ∧
  clip_info !! py "description" = Some (PyStr (py "short text")) ∧
  ∃ r, get_video_info extract_info {| info_url := py "https://valid/1" |} st0
       = (inr r, st0)
       ∧ description (data r) = py "short text".
Proof.
  assert (extract_info (py "https://valid/1") tt = (inr clip_info, tt)) as He
    by (vm_compute; reflexivity).
  assert (clip_info !! py "description" = Some (PyStr (py "short text"))) as Hd
    by (vm_compute; reflexivity).
  split; [exact He|]. split; [exact Hd|].
  destruct (proj1 (description_first_500 unit extract_info
                     {| info_url := py "https://valid/1" |} st0 clip_info tt He)
                  (py "short text") Hd) as (r & Hr & _ & Hsame & _).
  exists r. split; [exact Hr|]. apply Hsame. vm_compute. lia.
Defined.

(** C2 at the three URLs of the specification's example, second entry. *)
Lemma get_batch_info_positional_witness :
  let urls := [py "https://valid/1"; py "not-a-url"; py "https://valid/2"] in
  urls !! 1 = Some (py "not-a-url") ∧
  ∃ rs, get_batch_info extract_info urls st0 = (inr {| results := rs |}, st0)
        ∧ length rs = 3
        ∧ rs !! 1 = Some (EntryErr (py "not-a-url") (str_of_exn unresolved)).
Proof.
  intros urls.
  assert (urls !! 1 = Some (py "not-a-url")) as Hi by reflexivity.
  split; [exact Hi|].
  destruct (get_batch_info_positional unit extract_info urls st0)
    as (rs & Hrun & Hlen & _ & Hnth).
  exists rs. split; [exact Hrun|]. split; [exact Hlen|].
  exact (Hnth 1 (py "not-a-url") Hi).
Defined.



(** C1 at a request whose download step raises. *)
Lemma failed_download_leaves_transient_file_witness :
  ∃ resp st1,
    download_video no_unicode extract_info (request (py "https://valid/1")) st0
    = (inr resp, st1) ∧
    ∀ k, ∃ st2,
      consume download_fails mktemp (S k) (body resp) st1
      = (([], Some transcode_failed), st2) ∧
      fs st2 !! py "/tmp/tmpk3v9x2q1.mp4" = Some [].
Proof.
  refine (failed_download_leaves_transient_file no_unicode unit extract_info
            download_fails mktemp (request (py "https://valid/1")) st0
            clip_info tt tt (py "Clip: Test/2024!") (py "/tmp/tmpk3v9x2q1.mp4")
            transcode_failed _ _ _ _ _ _).
  - vm_compute; reflexivity.
  - vm_compute; reflexivity.
  - apply (bool_decide_unpack _). vm_compute. exact I.
  - apply (bool_decide_unpack _). vm_compute. exact I.
  - vm_compute; reflexivity.
  - intros o. reflexivity.
Defined.


(** C6 at a request whose download step raises. *)
Lemma download_failure_escapes_handler_witness :
  ∃ resp st1,
    download_video no_unicode extract_info (request (py "https://valid/1")) st0
    = (inr resp, st1) ∧
    resp_status resp = 200%Z ∧
    ∃ g st2, gen_next download_fails mktemp (body resp) st1
             = ((Raised transcode_failed, g), st2).
Proof.
  destruct (download_failure_escapes_handler no_unicode unit extract_info
              download_fails mktemp (request (py "https://valid/1")) st0
              clip_info tt tt (py "Clip: Test/2024!") transcode_failed)
    as (resp & st1 & Hrun & Hstatus & e' & g & st2 & Hnext & Hengine & _).
  - vm_compute; reflexivity.
  - vm_compute; reflexivity.
  - apply (bool_decide_unpack _). vm_compute. exact I.
  - apply (bool_decide_unpack _). vm_compute. exact I.
  - intros o. reflexivity.
  - exists resp, st1. split; [exact Hrun|]. split; [exact Hstatus|].
    exists g, st2.
    rewrite <- (Hengine (py "/tmp/tmpk3v9x2q1.mp4")); [exact Hnext|].
    vm_compute; reflexivity.
Defined.


(** The transient file of a stream the client abandons after one chunk,
    and of a stream read to its end. *)
Example abandoned_stream_keeps_file :
  ∃ st', consume download_ok mktemp 1
           (generate (set_outtmpl (build_ydl_opts
              {| fo_format := py "best"; fo_postprocessors := None |}
              (request (py "https://valid/1"))) (py "-"))
              (request (py "https://valid/1"))) st0
         = (([artifact], None), st')
         ∧ fs st' !! py "/tmp/tmpk3v9x2q1.mp4" = Some artifact.
Proof. vm_compute. eexists. split; reflexivity. Qed.

Example finished_stream_removes_file :
  ∃ st', consume download_ok mktemp 2
           (generate (set_outtmpl (build_ydl_opts
              {| fo_format := py "best"; fo_postprocessors := None |}
              (request (py "https://valid/1"))) (py "-"))
              (request (py "https://valid/1"))) st0
         = (([artifact], None), st')
         ∧ fs st' !! py "/tmp/tmpk3v9x2q1.mp4" = None.
Proof. vm_compute. eexists. split; reflexivity. Qed.

(** *** Further statements on concrete requests *)

Lemma video_selector_bounds_height_witness :
  ∃ d, get_format_opts (py "mkv") (py "1080") = inr d
       ∧ fo_format d = py "bestvideo[height<=1080]+bestaudio/best[height<=1080]".
Proof.
  refine (video_selector_bounds_height (py "mkv") (py "1080") _ _);
    apply (bool_decide_unpack _); vm_compute; exact I.
Defined.

Lemma directives_classify_format_witness :
  py "flac" ∈ audio_formats.
Proof.
  refine (proj2 (proj1 (directives_classify_format (py "flac") (py "480")
            {| fo_format := py "bestaudio/best";
               fo_postprocessors :=
                 Some [FFmpegExtractAudio (py "flac") (py "320")] |} _)) _);
    vm_compute; reflexivity.
Defined.

Lemma video_selector_ignores_container_witness :
  ∃ d1 d2, get_format_opts (py "mkv") (py "480") = inr d1
           ∧ get_format_opts (py "mp4") (py "480") = inr d2
           ∧ fo_format d1 = fo_format d2.
Proof.
  refine (video_selector_ignores_container (py "mkv") (py "mp4") (py "480") _ _);
    apply (bool_decide_unpack _); vm_compute; exact I.
Defined.

Lemma sanitize_ascii_safe_witness :
  ((48 ≤ 52 ≤ 57) ∨ (65 ≤ 52 ≤ 90) ∨ (97 ≤ 52 ≤ 122)
   ∨ 52 = 32 ∨ 52 = 45 ∨ 52 = 95)%N
  ∧ 52%N ∉ [34; 47; 92; 58; 10; 13]%N.
Proof.
  refine (sanitize_ascii_safe no_unicode (py "Clip: Test/2024!") 52%N _ _).
  - apply (bool_decide_unpack _). vm_compute. exact I.
  - reflexivity.
Defined.

Lemma sanitize_clean_title_witness :
  sanitize no_unicode (py "Clip Test2024") = py "Clip Test2024".
Proof.
  refine (sanitize_clean_title no_unicode (py "Clip Test2024") _ _).
  - apply (bool_decide_unpack _). vm_compute. exact I.
  - intros c [= <-]. reflexivity.
Defined.

Lemma get_video_info_succeeds_iff_witness :
  ∃ r, (get_video_info extract_info {| info_url := py "https://valid/1" |} st0).1
       = inr r.
Proof.
  refine (proj2 (get_video_info_succeeds_iff unit extract_info
                   {| info_url := py "https://valid/1" |} st0) _).
  exists clip_info. split; [vm_compute; reflexivity|].
  right. exists (py "short text"). vm_compute. reflexivity.
Defined.

Lemma null_description_is_bad_request_witness :
  get_video_info NullFixture.extract_info {| info_url := py "https://valid/1" |} st0
  = (inl {| status_code := 400;
            detail := py "'NoneType' object is not subscriptable" |}, st0).
Proof.
  refine (null_description_is_bad_request unit NullFixture.extract_info
            {| info_url := py "https://valid/1" |} st0
            NullFixture.null_info tt _ _);
    vm_compute; reflexivity.
Defined.

Lemma info_success_gives_batch_success_witness :
  ∃ r, get_batch_info extract_info [py "https://valid/1"] st0
       = (inr {| results := [EntryOk (py "https://valid/1") (title (data r))
                               (thumbnail (data r)) (duration (data r))] |}, st0).
Proof.
  eexists.
  refine (info_success_gives_batch_success unit extract_info
            {| info_url := py "https://valid/1" |} st0 st0 _ _).
  vm_compute. reflexivity.
Defined.

Lemma download_video_succeeds_iff_witness :
  ∃ resp, (download_video no_unicode extract_info
             (request (py "https://valid/1")) st0).1 = inr resp.
Proof.
  refine (proj2 (download_video_succeeds_iff no_unicode unit extract_info
                   (request (py "https://valid/1")) st0) _).
  exists clip_info, (py "Clip: Test/2024!").
  split; [vm_compute; reflexivity|]. split; [vm_compute; reflexivity|].
  split; apply (bool_decide_unpack _); vm_compute; exact I.
Defined.


Lemma null_title_is_server_error_witness :
  download_video no_unicode NullFixture.extract_info
    (request (py "https://valid/1")) st0
  = (inl {| status_code := 500;
            detail := py "'NoneType' object is not iterable" |}, st0).
Proof.
  refine (null_title_is_server_error no_unicode unit NullFixture.extract_info
            (request (py "https://valid/1")) st0 NullFixture.null_info tt _ _);
    vm_compute; reflexivity.
Defined.

Lemma download_carries_resolved_directives_witness :
  ∃ d resp st1,
    download_video no_unicode extract_info NullFixture.trim_request st0
    = (inr resp, st1)
    ∧ get_format_opts (py "mkv") (py "720") = inr d
    ∧ gen_at (body resp) = GenCreated
    ∧ gen_request (body resp) = NullFixture.trim_request
    ∧ yo_format (gen_opts (body resp)) = fo_format d
    ∧ yo_postprocessors (gen_opts (body resp)) = fo_postprocessors d
    ∧ yo_outtmpl (gen_opts (body resp)) = py "-".
Proof.
  refine (download_carries_resolved_directives no_unicode unit extract_info
            NullFixture.trim_request st0 clip_info tt (py "Clip: Test/2024!")
            _ _ _ _).
  - vm_compute; reflexivity.
  - vm_compute; reflexivity.
  - apply (bool_decide_unpack _). vm_compute. exact I.
  - apply (bool_decide_unpack _). vm_compute. exact I.
Defined.

Lemma download_trim_arguments_witness :
  ∃ resp st1,
    download_video no_unicode extract_info NullFixture.trim_request st0
    = (inr resp, st1)
    ∧ yo_postprocessor_args (gen_opts (body resp))
      = Some [py "-ss"; py "00:01:30"].
Proof.
  refine (download_trim_arguments no_unicode unit extract_info
            NullFixture.trim_request st0 clip_info tt (py "Clip: Test/2024!")
            _ _ _ _).
  - vm_compute; reflexivity.
  - vm_compute; reflexivity.
  - apply (bool_decide_unpack _). vm_compute. exact I.
  - apply (bool_decide_unpack _). vm_compute. exact I.
Defined.

Lemma content_type_matches_kind_witness :
  py "audio/" `prefix_of` dict_get content_types (py "ogg") octet_stream
  ∧ py "video/" `prefix_of` dict_get content_types (py "avi") octet_stream.
Proof.
  split.
  - refine (proj1 (content_type_matches_kind (py "ogg")) _).
    apply (bool_decide_unpack _). vm_compute. exact I.
  - refine (proj2 (content_type_matches_kind (py "avi")) _ _);
      apply (bool_decide_unpack _); vm_compute; exact I.
Defined.

Lemma stream_read_to_end_witness :
  ∃ chunks : list bytes,
    consume download_ok mktemp 4
      (generate (set_outtmpl (build_ydl_opts
         {| fo_format := py "best"; fo_postprocessors := None |}
         (request (py "https://valid/1"))) (py "-"))
         (request (py "https://valid/1"))) st0
    = ((chunks, None), st0)
    ∧ concat chunks = artifact
    ∧ Forall (λ c, c ≠ [] ∧ length c ≤ 1024 * 1024) chunks
    ∧ length artifact ≤ length chunks * (1024 * 1024)
    ∧ length chunks * (1024 * 1024) < length artifact + 1024 * 1024.
Proof.
  refine (stream_read_to_end unit download_ok mktemp _
            (request (py "https://valid/1")) st0 (py "/tmp/tmpk3v9x2q1.mp4")
            artifact tt 3 _ _ _ _).
  - vm_compute; reflexivity.
  - reflexivity.
  - reflexivity.
  - simpl. lia.
Defined.

Lemma stream_abandoned_witness :
  ∃ (chunks : list bytes) (st' : state unit),
    consume download_ok mktemp 1
      (generate (set_outtmpl (build_ydl_opts
         {| fo_format := py "best"; fo_postprocessors := None |}
         (request (py "https://valid/1"))) (py "-"))
         (request (py "https://valid/1"))) st0
    = ((chunks, None), st')
    ∧ length chunks = 1
    ∧ concat chunks = take (1 * (1024 * 1024)) artifact
    ∧ fs st' !! py "/tmp/tmpk3v9x2q1.mp4" = Some artifact
    ∧ net st' = tt.
Proof.
  refine (stream_abandoned unit download_ok mktemp _
            (request (py "https://valid/1")) st0 (py "/tmp/tmpk3v9x2q1.mp4")
            artifact tt 1 _ _ _ _).
  - vm_compute; reflexivity.
  - reflexivity.
  - lia.
  - simpl length. lia.
Defined.


(** C7 at a record whose description is [None]. *)
Lemma null_description_not_surfaced_witness :
  (get_video_info NullFixture.extract_info
     {| info_url := py "https://valid/1" |} st0).1
  = inl {| status_code := 400;
           detail := py "'NoneType' object is not subscriptable" |}
  ∧ (∀ r, (get_video_info NullFixture.extract_info
             {| info_url := py "https://valid/1" |} st0).1 ≠ inr r)
  ∧ ∃ entry, (get_batch_info NullFixture.extract_info
                [py "https://valid/1"] st0).1
             = inr {| results := [entry] |}
             ∧ entry_success entry = true.
Proof.
  refine (null_description_not_surfaced unit NullFixture.extract_info
            {| info_url := py "https://valid/1" |} st0
            NullFixture.null_info tt _ _);
    vm_compute; reflexivity.
Defined.

(** A format with a path separator: no temporary file can be created, the
    first [next] raises [FileNotFoundError], nothing is on disk and the
    engine is not asked to download. *)
Example separator_in_format_creates_no_file :
  consume download_ok mktemp 3
    (generate (set_outtmpl (build_ydl_opts
       {| fo_format := py "best"; fo_postprocessors := None |}
       {| url := py "https://valid/1"; format := py "a/b"; quality := None;
          start_time := None; end_time := None |}) (py "-"))
       {| url := py "https://valid/1"; format := py "a/b"; quality := None;
          start_time := None; end_time := None |}) st0
  = (([], Some (FileNotFoundError (py "/tmp/tmpk3v9x2q1.a/b"))), st0).
Proof. vm_compute. reflexivity. Qed.

End Checks.
